(** * invoke-demo-bootstrap.py: a shallow embedding and its properties

    The script [scripts/invoke-demo-bootstrap.py] is a straight-line program:
    it fetches a secret with the AWS CLI, builds an API Gateway v2 event,
    writes it to a file, invokes a Lambda function through the CLI, and
    pretty-prints the response.

    The embedding follows the script statement by statement.  Python values
    that come out of [json.loads] are a tree type [pyval]; Python [str] is a
    list of Unicode code points; everything the script asks of its
    environment (the two [subprocess.run] calls, the clock, the response
    file) is read from a [world] record; what the script does to its
    environment (printing, running a command, writing and reading a file) is
    recorded in a trace of [effect]s; exceptions and [sys.exit] are the
    error side of a small writer-and-error monad.

    In the monad [print] always succeeds; [terminal] then accounts for the
    encoding of the printed text: on a UTF-8 terminal the first text with
    a lone surrogate ends the run with UnicodeEncodeError.

    Not modelled: limits of the interpreter (recursion depth, the maximum
    number of digits of an [int] literal), terminals of another encoding,
    failure of the write to /tmp. *)

From Stdlib Require Import ZArith NArith List String Ascii Bool Lia.
From Stdlib Require Import Floats.SpecFloat.
Import ListNotations.

Set Implicit Arguments.

(* ================================================================== *)
(** * Python strings *)
(* ================================================================== *)

(** A Python [str] is a sequence of code points; indexing, slicing and
    [len] count code points. *)
Definition pystr := list N.

Module Str.

Local Open Scope N_scope.

(** Decoding of a UTF-8 source literal into its code points, so that the
    literals of the script can be written here as they are there. *)
Fixpoint utf8_decode (bs : list N) : pystr :=
  match bs with
  | [] => []
  | b0 :: r0 =>
    if b0 <? 128 then b0 :: utf8_decode r0
    else if b0 <? 224 then
      match r0 with
      | b1 :: r1 => ((b0 - 192) * 64 + (b1 - 128)) :: utf8_decode r1
      | _ => []
      end
    else if b0 <? 240 then
      match r0 with
      | b1 :: b2 :: r2 =>
        ((b0 - 224) * 4096 + (b1 - 128) * 64 + (b2 - 128)) :: utf8_decode r2
      | _ => []
      end
    else
      match r0 with
      | b1 :: b2 :: b3 :: r3 =>
        ((b0 - 240) * 262144 + (b1 - 128) * 4096 + (b2 - 128) * 64 + (b3 - 128))
          :: utf8_decode r3
      | _ => []
      end
  end.

Definition py (s : string) : pystr :=
  utf8_decode (map N_of_ascii (list_ascii_of_string s)).

Arguments py s : simpl never.

(** A literal in which the apostrophe stands for the double quote, for
    JSON texts. *)
Definition pyq (s : string) : pystr :=
  map (fun c => if c =? 39 then 34 else c) (py s).

Arguments pyq s : simpl never.

(** [a == b] *)
Fixpoint eqb (a b : pystr) : bool :=
  match a, b with
  | [], [] => true
  | x :: a', y :: b' => (x =? y) && eqb a' b'
  | _, _ => false
  end.

(** [s[:n]] *)
Definition slice_to (n : nat) (A : Type) (s : list A) : list A := firstn n s.
Arguments slice_to n {A} s.

(** [_PyUnicode_IsWhitespace]: the characters [str.strip()] removes. *)
Definition isspace (c : N) : bool :=
  ((9 <=? c) && (c <=? 13)) || ((28 <=? c) && (c <=? 32))
  || (c =? 133) || (c =? 160) || (c =? 5760)
  || ((8192 <=? c) && (c <=? 8202))
  || (c =? 8232) || (c =? 8233) || (c =? 8239) || (c =? 8287) || (c =? 12288).

Fixpoint lstrip (s : pystr) : pystr :=
  match s with
  | c :: r => if isspace c then lstrip r else s
  | [] => []
  end.

Definition rstrip (s : pystr) : pystr := rev (lstrip (rev s)).

(** [s.strip()] *)
Definition strip (s : pystr) : pystr := rstrip (lstrip s).

(** [sep.join(parts)] *)
Fixpoint join (sep : pystr) (parts : list pystr) : pystr :=
  match parts with
  | [] => []
  | [p] => p
  | p :: rest => p ++ sep ++ join sep rest
  end.

(** [needle in s] *)
Fixpoint starts_with (p s : pystr) : bool :=
  match p, s with
  | [], _ => true
  | a :: p', b :: s' => (a =? b) && starts_with p' s'
  | _ :: _, [] => false
  end.

Fixpoint contains (needle s : pystr) : bool :=
  starts_with needle s ||
  match s with
  | [] => false
  | _ :: r => contains needle r
  end.

(** Decimal digits of a number, most significant first. *)
Fixpoint uint_digits (u : Decimal.uint) : pystr :=
  match u with
  | Decimal.Nil => []
  | Decimal.D0 r => 48 :: uint_digits r
  | Decimal.D1 r => 49 :: uint_digits r
  | Decimal.D2 r => 50 :: uint_digits r
  | Decimal.D3 r => 51 :: uint_digits r
  | Decimal.D4 r => 52 :: uint_digits r
  | Decimal.D5 r => 53 :: uint_digits r
  | Decimal.D6 r => 54 :: uint_digits r
  | Decimal.D7 r => 55 :: uint_digits r
  | Decimal.D8 r => 56 :: uint_digits r
  | Decimal.D9 r => 57 :: uint_digits r
  end.

Definition of_N (n : N) : pystr := uint_digits (N.to_uint n).

(** [str(z)] for an [int]. *)
Definition of_Z (z : Z) : pystr :=
  match z with
  | Z0 => [48]
  | Zpos p => of_N (Npos p)
  | Zneg p => 45 :: of_N (Npos p)
  end.

(** One lower-case hexadecimal digit, and [w] of them for a number. *)
Definition hexdigit (d : N) : N := if d <? 10 then 48 + d else 87 + d.

Fixpoint hex (w : nat) (n : N) : pystr :=
  match w with
  | O => []
  | S w' => hex w' (n / 16) ++ [hexdigit (n mod 16)]
  end.

End Str.

Import Str.


(* ================================================================== *)
(** * Python floats *)
(* ================================================================== *)

(** A Python [float] is an IEEE 754 binary64 number: [spec_float] at
    precision 53 and maximal exponent 1024.  Conversions from and to
    decimal text are correctly rounded (ties to even), as CPython's are. *)
Module PyFloat.

Local Open Scope Z_scope.

Definition prec : Z := 53.
Definition emax : Z := 1024.

(** The float nearest to [num / den], for [0 <= num] and [0 < den]. *)
Definition of_ratio (neg : bool) (num den : Z) : spec_float :=
  if num =? 0 then S754_zero neg
  else
    let k := 1076 + Z.log2 den in
    let q := (num * 2 ^ k) / den in
    let r := (num * 2 ^ k) mod den in
    let loc := if r =? 0 then loc_Exact else loc_Inexact (Z.compare (2 * r) den) in
    binary_round_aux prec emax neg q (- k) loc.

(** The float nearest to [m * 10 ^ e10], for [0 <= m]: [float("...")]. *)
Definition of_decimal (neg : bool) (m e10 : Z) : spec_float :=
  if 0 <=? e10 then of_ratio neg (m * 10 ^ e10) 1
  else of_ratio neg m (10 ^ (- e10)).

(** [float(z)] for an [int]; [None] is OverflowError. *)
Definition of_int (z : Z) : option spec_float :=
  match binary_normalize prec emax z 0 false with
  | S754_infinity _ => None
  | x => Some x
  end.

(** [bool(x)] *)
Definition truthy (x : spec_float) : bool :=
  match x with
  | S754_zero _ => false
  | _ => true
  end.

(** [int(x)]: truncation towards zero.  [inl true] is ValueError (NaN),
    [inl false] is OverflowError (an infinity). *)
Definition to_int (x : spec_float) : bool + Z :=
  match x with
  | S754_zero _ => inr 0
  | S754_nan => inl true
  | S754_infinity _ => inl false
  | S754_finite s m e =>
    let a := if 0 <=? e then Zpos m * 2 ^ e else Zpos m / 2 ^ (- e) in
    inr (if s then - a else a)
  end.

(** Round [num / den] to an integer, ties to even. *)
Definition round_half_even (num den : Z) : Z :=
  let q := num / den in
  let r := num mod den in
  match Z.compare (2 * r) den with
  | Lt => q
  | Gt => q + 1
  | Eq => if Z.even q then q else q + 1
  end.

(** Digits of an integer part with a comma every three digits. *)
Fixpoint group3 (rev_digits : pystr) : pystr :=
  match rev_digits with
  | a :: b :: c :: ((_ :: _) as rest) => a :: b :: c :: 44%N :: group3 rest
  | short => short
  end.

Definition with_commas (digits : pystr) : pystr := rev (group3 (rev digits)).

(** [format(x, '.<n>f')] and, with [comma], [format(x, ',.<n>f')]. *)
Definition format_f (comma : bool) (n : nat) (x : spec_float) : pystr :=
  let fixed (s : bool) (r : Z) :=
    let ds := Str.of_Z r in
    let ds := repeat 48%N (S n - List.length ds) ++ ds in
    let ip := firstn (List.length ds - n) ds in
    let fp := skipn (List.length ds - n) ds in
    (if s then [45%N] else [])
      ++ (if comma then with_commas ip else ip)
      ++ (match n with O => [] | _ => 46%N :: fp end) in
  match x with
  | S754_nan => Str.py "nan"
  | S754_infinity s => if s then Str.py "-inf" else Str.py "inf"
  | S754_zero s => fixed s 0
  | S754_finite s m e =>
    let p := 10 ^ Z.of_nat n in
    fixed s (if 0 <=? e then Zpos m * p * 2 ^ e
             else round_half_even (Zpos m * p) (2 ^ (- e)))
  end.

(** [num / den < 10 ^ p] *)
Definition below_pow10 (num den p : Z) : bool :=
  if 0 <=? p then num <? 10 ^ p * den else num * 10 ^ (- p) <? den.

(** The position of the decimal point of [num / den]: the [p] with
    [10 ^ (p - 1) <= num / den < 10 ^ p], searched from a first guess. *)
Fixpoint decpt_from (fuel : nat) (num den p : Z) : Z :=
  match fuel with
  | O => p
  | S f =>
    if below_pow10 num den (p - 1) then decpt_from f num den (p - 1)
    else if below_pow10 num den p then p
    else decpt_from f num den (p + 1)
  end.

Definition decpt (num den : Z) : Z :=
  decpt_from 700 num den (((Z.log2 num - Z.log2 den) * 30103) / 100000 + 1).

(** Drop the trailing zeros of [d * 10 ^ q]. *)
Fixpoint strip_zeros (fuel : nat) (d q : Z) : Z * Z :=
  match fuel with
  | O => (d, q)
  | S f => if (d mod 10 =? 0) && negb (d =? 0) then strip_zeros f (d / 10) (q + 1) else (d, q)
  end.

(** The shortest decimal [d * 10 ^ q] that reads back as the float
    [m * 2 ^ e], the nearest to it among the shortest (ties to even):
    [n] significant digits are tried for [n] from [18 - fuel] on. *)
Fixpoint shortest (fuel : nat) (x : spec_float) (num den p : Z) : Z * Z :=
  match fuel with
  | O => (0, 0)
  | S f =>
    let n := 18 - Z.of_nat fuel in
    let q := p - n in
    let '(snum, sden) := if 0 <=? q then (num, den * 10 ^ q) else (num * 10 ^ (- q), den) in
    let lo := snum / sden in
    let hi := lo + 1 in
    let ok_lo := match of_decimal false lo q, x with
                 | S754_finite _ m1 e1, S754_finite _ m2 e2 => (Pos.eqb m1 m2) && (e1 =? e2)
                 | _, _ => false
                 end in
    let ok_hi := match of_decimal false hi q, x with
                 | S754_finite _ m1 e1, S754_finite _ m2 e2 => (Pos.eqb m1 m2) && (e1 =? e2)
                 | _, _ => false
                 end in
    let nearest := round_half_even snum sden in
    if ok_lo && ok_hi then strip_zeros 20 nearest q
    else if ok_lo then strip_zeros 20 lo q
    else if ok_hi then strip_zeros 20 hi q
    else shortest f x num den p
  end.

(** [repr(x)], which is also [str(x)]. *)
Definition repr (x : spec_float) : pystr :=
  match x with
  | S754_nan => Str.py "nan"
  | S754_infinity s => if s then Str.py "-inf" else Str.py "inf"
  | S754_zero s => if s then Str.py "-0.0" else Str.py "0.0"
  | S754_finite s m e =>
    let '(num, den) := if 0 <=? e then (Zpos m * 2 ^ e, 1) else (Zpos m, 2 ^ (- e)) in
    let p := decpt num den in
    let '(d, q) := shortest 17 (binary_normalize prec emax (Zpos m) e false) num den p in
    let ds := Str.of_Z d in
    let len := Z.of_nat (List.length ds) in
    let pt := len + q in
    (if s then [45%N] else []) ++
    if (pt <=? -4) || (16 <? pt) then
      firstn 1 ds
        ++ (match skipn 1 ds with [] => [] | more => 46%N :: more end)
        ++ [101%N]
        ++ (let ex := pt - 1 in
            (if ex <? 0 then [45%N] else [43%N])
              ++ (if Z.abs ex <? 10 then [48%N] else [])
              ++ Str.of_Z (Z.abs ex))
    else if pt <=? 0 then
      Str.py "0." ++ repeat 48%N (Z.to_nat (- pt)) ++ ds
    else if len <=? pt then
      ds ++ repeat 48%N (Z.to_nat (pt - len)) ++ Str.py ".0"
    else
      firstn (Z.to_nat pt) ds ++ 46%N :: skipn (Z.to_nat pt) ds
  end.

(** What [json.dumps] writes for a float ([allow_nan] is on by default). *)
Definition json_repr (x : spec_float) : pystr :=
  match x with
  | S754_nan => Str.py "NaN"
  | S754_infinity s => if s then Str.py "-Infinity" else Str.py "Infinity"
  | _ => repr x
  end.

End PyFloat.

(* ================================================================== *)
(** * Python values and exceptions *)
(* ================================================================== *)

(** The Python objects the script handles: what [json.loads] returns and
    what the script builds for [json.dumps].  A [dict] keeps its keys in
    insertion order; all keys here are strings. *)
#[local] Set Warnings "-register-all".

Inductive pyval : Type :=
| VNone
| VBool (b : bool)
| VInt (z : Z)
| VFloat (x : spec_float)
| VStr (s : pystr)
| VList (items : list pyval)
| VDict (members : list (pystr * pyval)).

Definition pydict := list (pystr * pyval).

(** The exceptions the script can meet.  [SystemExit] is not an
    [Exception]: [except Exception] does not catch it. *)
Inductive pyexn : Type :=
| SystemExit (code : Z)
| KeyError
| TypeError
| AttributeError
| ValueError
| OverflowError
| JSONDecodeError
| OSError.

Definition is_Exception (e : pyexn) : bool :=
  match e with
  | SystemExit _ => false
  | _ => true
  end.

(** [d[k]] on a dict, as an option. *)
Fixpoint dict_lookup (k : pystr) (d : pydict) : option pyval :=
  match d with
  | [] => None
  | (k', v) :: r => if Str.eqb k k' then Some v else dict_lookup k r
  end.

(** [d[k] = v]: an existing key keeps its place. *)
Fixpoint dict_set (k : pystr) (v : pyval) (d : pydict) : pydict :=
  match d with
  | [] => [(k, v)]
  | (k', v') :: r => if Str.eqb k k' then (k', v) :: r else (k', v') :: dict_set k v r
  end.

(** [bool(v)] *)
Definition truthy (v : pyval) : bool :=
  match v with
  | VNone => false
  | VBool b => b
  | VInt z => negb (z =? 0)%Z
  | VFloat x => PyFloat.truthy x
  | VStr s => match s with [] => false | _ => true end
  | VList l => match l with [] => false | _ => true end
  | VDict d => match d with [] => false | _ => true end
  end.

(* ================================================================== *)
(** * json.dumps *)
(* ================================================================== *)

Module Dumps.

Local Open Scope N_scope.

(** One character of a string under [ensure_ascii]. *)
Definition escape_char (c : N) : pystr :=
  if c =? 34 then [92; 34]
  else if c =? 92 then [92; 92]
  else if c =? 10 then py "\n"
  else if c =? 13 then py "\r"
  else if c =? 9 then py "\t"
  else if c =? 8 then py "\b"
  else if c =? 12 then py "\f"
  else if (32 <=? c) && (c <=? 126) then [c]
  else if c <? 65536 then py "\u" ++ Str.hex 4 c
  else
    let n := c - 65536 in
    py "\u" ++ Str.hex 4 (55296 + (n / 1024) mod 1024)
      ++ py "\u" ++ Str.hex 4 (56320 + n mod 1024).

(** [encode_basestring_ascii] *)
Definition encode_string (s : pystr) : pystr :=
  [34] ++ flat_map escape_char s ++ [34].

(** A new line and the indentation of nesting level [level]. *)
Definition newline_indent (indent : option nat) (level : nat) : pystr :=
  match indent with
  | Some k => 10 :: repeat 32 (k * level)
  | None => []
  end.

(** [', '] without [indent], [','] with it. *)
Definition item_separator (indent : option nat) : pystr :=
  match indent with
  | Some _ => py ","
  | None => py ", "
  end.

(** [JSONEncoder(indent=indent).encode(v)], at a nesting level. *)
Fixpoint encode (indent : option nat) (level : nat) (v : pyval) {struct v} : pystr :=
  match v with
  | VNone => py "null"
  | VBool true => py "true"
  | VBool false => py "false"
  | VInt z => Str.of_Z z
  | VFloat x => PyFloat.json_repr x
  | VStr s => encode_string s
  | VList [] => py "[]"
  | VList items =>
    py "[" ++ newline_indent indent (S level)
      ++ Str.join (item_separator indent ++ newline_indent indent (S level))
                  (map (encode indent (S level)) items)
      ++ newline_indent indent level ++ py "]"
  | VDict [] => py "{}"
  | VDict members =>
    py "{" ++ newline_indent indent (S level)
      ++ Str.join (item_separator indent ++ newline_indent indent (S level))
                  (map (fun kv => encode_string (fst kv) ++ py ": "
                                    ++ encode indent (S level) (snd kv)) members)
      ++ newline_indent indent level ++ py "}"
  end.

End Dumps.

(** [json.dumps(v)] and [json.dumps(v, indent=k)] *)
Definition json_dumps (v : pyval) : pystr := Dumps.encode None 0 v.
Definition json_dumps_indent (k : nat) (v : pyval) : pystr := Dumps.encode (Some k) 0 v.

(* ================================================================== *)
(** * json.loads *)
(* ================================================================== *)

(** The decoder follows CPython's scanner ([scan_once], [scanstring],
    [_parse_object], [_parse_array], [_match_number]) in its default
    configuration: strict strings, [NaN] and the infinities accepted,
    the last value kept for a repeated key. *)
Module Loads.

Local Open Scope N_scope.

(** The result of scanning a prefix: the value and the text after it, a
    syntax error, or not enough recursion fuel. *)
Inductive scan (A : Type) : Type :=
| Parsed (a : A) (rest : pystr)
| Invalid
| NoFuel.
Arguments Invalid {A}.
Arguments NoFuel {A}.

Definition is_ws (c : N) : bool :=
  (c =? 32) || (c =? 9) || (c =? 10) || (c =? 13).

Fixpoint skip_ws (s : pystr) : pystr :=
  match s with
  | c :: r => if is_ws c then skip_ws r else s
  | [] => []
  end.

Definition is_digit (c : N) : bool := (48 <=? c) && (c <=? 57).

Definition hexval (c : N) : option N :=
  if is_digit c then Some (c - 48)
  else if (97 <=? c) && (c <=? 102) then Some (c - 87)
  else if (65 <=? c) && (c <=? 70) then Some (c - 55)
  else None.

Definition hex4 (a b c d : N) : option N :=
  match hexval a, hexval b, hexval c, hexval d with
  | Some x, Some y, Some z, Some w => Some (((x * 16 + y) * 16 + z) * 16 + w)
  | _, _, _, _ => None
  end.

Definition is_high_surrogate (c : N) : bool := (55296 <=? c) && (c <=? 56319).
Definition is_low_surrogate (c : N) : bool := (56320 <=? c) && (c <=? 57343).
Definition join_surrogates (hi lo : N) : N :=
  65536 + (hi - 55296) * 1024 + (lo - 56320).

(** The character a one-letter escape stands for. *)
Definition simple_escape (c : N) : option N :=
  if c =? 34 then Some 34
  else if c =? 92 then Some 92
  else if c =? 47 then Some 47
  else if c =? 98 then Some 8
  else if c =? 102 then Some 12
  else if c =? 110 then Some 10
  else if c =? 114 then Some 13
  else if c =? 116 then Some 9
  else None.

Definition cons_char (c : N) (r : option (pystr * pystr)) : option (pystr * pystr) :=
  match r with
  | Some (str, rest) => Some (c :: str, rest)
  | None => None
  end.

(** [scanstring], from just after the opening quote: the decoded string
    and the text after the closing quote. *)
Fixpoint scanstring (s : pystr) : option (pystr * pystr) :=
  match s with
  | [] => None
  | c :: r =>
    if c =? 34 then Some ([], r)
    else if c =? 92 then
      match r with
      | [] => None
      | e :: r1 =>
        if e =? 117 then
          match r1 with
          | h1 :: h2 :: h3 :: h4 :: r2 =>
            match hex4 h1 h2 h3 h4 with
            | None => None
            | Some u =>
              if is_high_surrogate u then
                match r2 with
                | b :: l :: g1 :: g2 :: g3 :: g4 :: r3 =>
                  if (b =? 92) && (l =? 117) then
                    match hex4 g1 g2 g3 g4 with
                    | None => None
                    | Some u2 =>
                      if is_low_surrogate u2
                      then cons_char (join_surrogates u u2) (scanstring r3)
                      else cons_char u (scanstring r2)
                    end
                  else cons_char u (scanstring r2)
                | _ => cons_char u (scanstring r2)
                end
              else cons_char u (scanstring r2)
            end
          | _ => None
          end
        else
          match simple_escape e with
          | Some x => cons_char x (scanstring r1)
          | None => None
          end
      end
    else if c <=? 31 then None
    else cons_char c (scanstring r)
  end.

(** The longest prefix of digits, and the rest. *)
Fixpoint span_digits (s : pystr) : pystr * pystr :=
  match s with
  | c :: r => if is_digit c then let '(d, rest) := span_digits r in (c :: d, rest)
              else ([], s)
  | [] => ([], [])
  end.

(** [int(digits)] *)
Definition digits_value (ds : pystr) : Z :=
  fold_left (fun acc c => (acc * 10 + Z.of_N (c - 48))%Z) ds 0%Z.

(** The integer part of a number: [0], or a digit from 1 to 9 and more
    digits. *)
Definition int_part (s : pystr) : option (pystr * pystr) :=
  match s with
  | c :: r =>
    if c =? 48 then Some ([c], r)
    else if is_digit c then Some (span_digits s)
    else None
  | [] => None
  end.

(** [.digits], when a digit follows the point. *)
Definition frac_part (s : pystr) : option (pystr * pystr) :=
  match s with
  | p :: d :: r => if (p =? 46) && is_digit d then Some (span_digits (d :: r)) else None
  | _ => None
  end.

(** [e], an optional sign and digits, when there is a digit. *)
Definition exp_part (s : pystr) : option (Z * pystr) :=
  match s with
  | e :: r =>
    if (e =? 101) || (e =? 69) then
      let '(neg, r1) := match r with
                        | sg :: r' => if sg =? 45 then (true, r')
                                      else if sg =? 43 then (false, r')
                                      else (false, r)
                        | [] => (false, r)
                        end in
      match span_digits r1 with
      | ([], _) => None
      | (ds, rest) => Some (if neg then (- digits_value ds)%Z else digits_value ds, rest)
      end
    else None
  | [] => None
  end.

(** [_match_number]: an [int] when there is neither fraction nor
    exponent, a [float] otherwise. *)
Definition match_number (s : pystr) : scan pyval :=
  let '(neg, s1) := match s with
                    | c :: r => if c =? 45 then (true, r) else (false, s)
                    | [] => (false, s)
                    end in
  match int_part s1 with
  | None => Invalid
  | Some (ip, s2) =>
    let '(fp, s3) := match frac_part s2 with
                     | Some (fp, s3) => (Some fp, s3)
                     | None => (None, s2)
                     end in
    let '(ex, s4) := match exp_part s3 with
                     | Some (ex, s4) => (Some ex, s4)
                     | None => (None, s3)
                     end in
    match fp, ex with
    | None, None =>
      Parsed (VInt (if neg then - digits_value ip else digits_value ip)%Z) s4
    | _, _ =>
      let fd := match fp with Some d => d | None => [] end in
      let e10 := match ex with Some e => e | None => 0%Z end in
      Parsed (VFloat (PyFloat.of_decimal neg (digits_value (ip ++ fd))
                                         (e10 - Z.of_nat (List.length fd)))) s4
    end
  end.

(** A constant word at the head of the text. *)
Definition constant (word : pystr) (v : pyval) (s : pystr) : option (scan pyval) :=
  if Str.starts_with word s then Some (Parsed v (skipn (List.length word) s)) else None.

(** [scan_once] with the loops of [_parse_object] and [_parse_array];
    [items] is accumulated in reverse. *)
Fixpoint scan_once (fuel : nat) (s : pystr) {struct fuel} : scan pyval :=
  match fuel with
  | O => NoFuel
  | S f =>
    match s with
    | [] => Invalid
    | c :: r =>
      if c =? 34 then
        match scanstring r with
        | Some (str, rest) => Parsed (VStr str) rest
        | None => Invalid
        end
      else if c =? 123 then
        match skip_ws r with
        | c1 :: r1 =>
          if c1 =? 125 then Parsed (VDict []) r1
          else object_loop f [] (c1 :: r1)
        | [] => Invalid
        end
      else if c =? 91 then
        match skip_ws r with
        | c1 :: r1 =>
          if c1 =? 93 then Parsed (VList []) r1
          else array_loop f [] (c1 :: r1)
        | [] => Invalid
        end
      else
        match constant (py "null") VNone s with
        | Some p => p
        | None =>
        match constant (py "true") (VBool true) s with
        | Some p => p
        | None =>
        match constant (py "false") (VBool false) s with
        | Some p => p
        | None =>
        match constant (py "NaN") (VFloat S754_nan) s with
        | Some p => p
        | None =>
        match constant (py "Infinity") (VFloat (S754_infinity false)) s with
        | Some p => p
        | None =>
        match constant (py "-Infinity") (VFloat (S754_infinity true)) s with
        | Some p => p
        | None => match_number s
        end end end end end end
    end
  end

with object_loop (fuel : nat) (members : pydict) (s : pystr) {struct fuel} : scan pyval :=
  match fuel with
  | O => NoFuel
  | S f =>
    match s with
    | q :: r =>
      if q =? 34 then
        match scanstring r with
        | None => Invalid
        | Some (key, s1) =>
          match skip_ws s1 with
          | colon :: s2 =>
            if colon =? 58 then
              match scan_once f (skip_ws s2) with
              | Parsed v s3 =>
                let members' := dict_set key v members in
                match skip_ws s3 with
                | d :: s4 =>
                  if d =? 125 then Parsed (VDict members') s4
                  else if d =? 44 then object_loop f members' (skip_ws s4)
                  else Invalid
                | [] => Invalid
                end
              | Invalid => Invalid
              | NoFuel => NoFuel
              end
            else Invalid
          | [] => Invalid
          end
        end
      else Invalid
    | [] => Invalid
    end
  end

with array_loop (fuel : nat) (items : list pyval) (s : pystr) {struct fuel} : scan pyval :=
  match fuel with
  | O => NoFuel
  | S f =>
    match scan_once f s with
    | Parsed v s1 =>
      match skip_ws s1 with
      | d :: s2 =>
        if d =? 93 then Parsed (VList (rev (v :: items))) s2
        else if d =? 44 then array_loop f (v :: items) (skip_ws s2)
        else Invalid
      | [] => Invalid
      end
    | Invalid => Invalid
    | NoFuel => NoFuel
    end
  end.

(** [JSONDecoder.decode]: one value between optional whitespace, and
    nothing after it.  [None] is JSONDecodeError. *)
Definition decode (s : pystr) : option pyval :=
  if Str.starts_with [65279] s then None
  else
    match scan_once (S (S (List.length s))) (skip_ws s) with
    | Parsed v rest => match skip_ws rest with [] => Some v | _ => None end
    | _ => None
    end.

End Loads.

(** [json.loads(v)]: the argument must be a [str] (the script never has
    [bytes]); a decoding error is JSONDecodeError. *)
Definition json_loads (v : pyval) : pyexn + pyval :=
  match v with
  | VStr s =>
    match Loads.decode s with
    | Some x => inr x
    | None => inl JSONDecodeError
    end
  | _ => inl TypeError
  end.

(* ================================================================== *)
(** * Operations of the script on Python values *)
(* ================================================================== *)

(** A pure computation that may raise. *)
Definition res (A : Type) : Type := (pyexn + A)%type.

(** [v.get(k, default)]: only a dict has [get]. *)
Definition py_get (v : pyval) (k : pystr) (default : pyval) : res pyval :=
  match v with
  | VDict d => inr (match dict_lookup k d with Some x => x | None => default end)
  | _ => inl AttributeError
  end.

(** [v[k]] for a string key [k]. *)
Definition py_getitem (v : pyval) (k : pystr) : res pyval :=
  match v with
  | VDict d => match dict_lookup k d with Some x => inr x | None => inl KeyError end
  | _ => inl TypeError
  end.

(** [v.items()] *)
Definition py_items (v : pyval) : res pydict :=
  match v with
  | VDict d => inr d
  | _ => inl AttributeError
  end.

(** [v[:n]]: a prefix of a string or of a list.  (A dict raises
    TypeError up to Python 3.11 and KeyError from 3.12 on.) *)
Definition py_slice_to (n : nat) (v : pyval) : res pyval :=
  match v with
  | VStr s => inr (VStr (slice_to n s))
  | VList l => inr (VList (slice_to n l))
  | _ => inl TypeError
  end.

(** [len(v)] *)
Definition py_len (v : pyval) : res nat :=
  match v with
  | VStr s => inr (List.length s)
  | VList l => inr (List.length l)
  | VDict d => inr (List.length d)
  | _ => inl TypeError
  end.

(** The elements [for s in v] goes through: the items of a list, the
    keys of a dict, the characters of a string. *)
Definition py_iter (v : pyval) : res (list pyval) :=
  match v with
  | VList l => inr l
  | VDict d => inr (map (fun kv => VStr (fst kv)) d)
  | VStr s => inr (map (fun c => VStr [c]) s)
  | _ => inl TypeError
  end.

(** [format(v, ',.0f')]: an [int] or a [bool] is converted to [float]
    first. *)
Definition py_format_comma_0f (v : pyval) : res pystr :=
  match v with
  | VFloat x => inr (PyFloat.format_f true 0 x)
  | VInt z =>
    match PyFloat.of_int z with
    | Some x => inr (PyFloat.format_f true 0 x)
    | None => inl OverflowError
    end
  | VBool b => inr (if b then py "1" else py "0")
  | VStr _ => inl ValueError
  | _ => inl TypeError
  end.

(** [int(x)] for a float. *)
Definition py_int_of_float (x : spec_float) : res Z :=
  match PyFloat.to_int x with
  | inr z => inr z
  | inl true => inl ValueError
  | inl false => inl OverflowError
  end.

Section Repr.

(** [Py_UNICODE_ISPRINTABLE] above U+007F: a table of the interpreter's
    Unicode database, used by [repr] of a string. *)
Variable isprintable : N -> bool.

Local Open Scope N_scope.

(** One character of [repr(s)] for the chosen quote. *)
Definition repr_char (quote c : N) : pystr :=
  if (c =? quote) || (c =? 92) then [92; c]
  else if c =? 9 then py "\t"
  else if c =? 10 then py "\n"
  else if c =? 13 then py "\r"
  else if (c <? 32) || (c =? 127) then py "\x" ++ Str.hex 2 c
  else if c <? 127 then [c]
  else if isprintable c then [c]
  else if c <=? 255 then py "\x" ++ Str.hex 2 c
  else if c <=? 65535 then py "\u" ++ Str.hex 4 c
  else py "\U" ++ Str.hex 8 c.

(** [repr(s)] for a string: double quotes only when the string has an
    apostrophe and no double quote. *)
Definition repr_str (s : pystr) : pystr :=
  let quote := if existsb (N.eqb 39) s && negb (existsb (N.eqb 34) s) then 34 else 39 in
  [quote] ++ flat_map (repr_char quote) s ++ [quote].

(** [repr(v)] *)
Fixpoint py_repr (v : pyval) : pystr :=
  match v with
  | VNone => py "None"
  | VBool true => py "True"
  | VBool false => py "False"
  | VInt z => Str.of_Z z
  | VFloat x => PyFloat.repr x
  | VStr s => repr_str s
  | VList items => py "[" ++ Str.join (py ", ") (map py_repr items) ++ py "]"
  | VDict members =>
    py "{" ++ Str.join (py ", ")
                (map (fun kv => repr_str (fst kv) ++ py ": " ++ py_repr (snd kv)) members)
      ++ py "}"
  end.

(** [str(v)], which is what [f'{v}'] inserts. *)
Definition py_str (v : pyval) : pystr :=
  match v with
  | VStr s => s
  | _ => py_repr v
  end.

End Repr.

(* ================================================================== *)
(** * Effects, the environment and the execution monad *)
(* ================================================================== *)

(** What the script does to its environment, in order. *)
Inductive effect : Type :=
| Print (text : pystr)
| Run (argv : list pystr)
| WriteFile (path content : pystr)
| ReadFile (path : pystr).

(** [subprocess.CompletedProcess] with captured text output. *)
Record completed : Type := {
  returncode : Z;
  stdout : pystr;
  stderr : pystr
}.

(** What the environment answers during one run.  [None] for a command
    means that it could not be started, [None] for the response file that
    it cannot be opened; both raise OSError. *)
Record world : Type := {
  unicode_printable : N -> bool;
  ssm_get_parameter : option completed;
  time_request_id : spec_float;
  utcnow_strftime : pystr;
  time_epoch : spec_float;
  time_start : spec_float;
  lambda_invoke : option completed;
  time_end : spec_float;
  response_file : option pystr
}.

(** A computation: the effects it performed, and a value or the exception
    that ended it. *)
Definition M (A : Type) : Type := (list effect * res A)%type.

Definition ret (A : Type) (a : A) : M A := ([], inr a).

Definition bind (A B : Type) (m : M A) (k : A -> M B) : M B :=
  match m with
  | (t, inl e) => (t, inl e)
  | (t, inr a) => let '(t', r) := k a in (t ++ t', r)
  end.

Declare Scope py_scope.
Delimit Scope py_scope with script.
Notation "x <- m ;; k" := (bind m (fun x => k))
  (at level 61, m at next level, right associativity) : py_scope.
Notation "m ;; k" := (bind m (fun _ => k))
  (at level 61, right associativity) : py_scope.
Local Open Scope py_scope.

Definition raise (A : Type) (e : pyexn) : M A := ([], inl e).
Arguments raise {A} e.

Definition lift (A : Type) (r : res A) : M A := ([], r).

Definition emit (e : effect) : M unit := ([e], inr tt).

(** [print(text)] *)
Definition print (text : pystr) : M unit := emit (Print text).

(** [sys.exit(code)] *)
Definition sys_exit (A : Type) (code : Z) : M A := raise (SystemExit code).
Arguments sys_exit {A} code.

(** [try: m  except Exception: handler] *)
Definition try_except (A : Type) (m : M A) (handler : M A) : M A :=
  match m with
  | (t, inl e) => if is_Exception e then let '(t', r) := handler in (t ++ t', r) else m
  | (_, inr _) => m
  end.

(** [for x in xs: body(x)] *)
Fixpoint for_each (A : Type) (xs : list A) (body : A -> M unit) : M unit :=
  match xs with
  | [] => ret tt
  | x :: rest => body x ;; for_each rest body
  end.

(** [subprocess.run(argv, capture_output=True, text=True)] *)
Definition subprocess_run (argv : list pystr) (answer : option completed) : M completed :=
  emit (Run argv) ;;
  match answer with
  | Some c => ret c
  | None => raise OSError
  end.

(** [open(path).read()] *)
Definition read_file (path : pystr) (content : option pystr) : M pystr :=
  emit (ReadFile path) ;;
  match content with
  | Some text => ret text
  | None => raise OSError
  end.

(** The lines printed, in order: one entry for each [print]. *)
Definition printed (t : list effect) : list pystr :=
  flat_map (fun e => match e with Print s => [s] | _ => [] end) t.

(** The exit status of the interpreter: [sys.exit(n)] gives [n], any
    other exception that is not caught gives 1. *)
Definition exit_code (A : Type) (r : res A) : Z :=
  match r with
  | inr _ => 0
  | inl (SystemExit n) => n
  | inl _ => 1
  end.

(* ================================================================== *)
(** * The script *)
(* ================================================================== *)

Definition ssm_argv : list pystr :=
  [py "aws"; py "ssm"; py "get-parameter"; py "--name";
   py "/qshelter/staging/bootstrap-secret"; py "--with-decryption";
   py "--query"; py "Parameter.Value"; py "--output"; py "text"].

(** The line that confirms the secret: [f"   Got secret: {secret[:5]}..."] *)
Definition secret_preview (secret : pystr) : pystr :=
  py "   Got secret: " ++ slice_to 5 secret ++ py "...".

(** Lines 13-34: get the bootstrap secret from SSM. *)
Definition fetch_secret (w : world) : M pystr :=
  print (py "🔑 Fetching bootstrap secret from SSM...") ;;
  result <- subprocess_run ssm_argv (ssm_get_parameter w) ;;
  let BOOTSTRAP_SECRET := strip (stdout result) in
  match BOOTSTRAP_SECRET with
  | [] =>
    print (py "❌ Failed to get bootstrap secret") ;;
    sys_exit 1
  | _ =>
    print (secret_preview BOOTSTRAP_SECRET) ;;
    ret BOOTSTRAP_SECRET
  end.

(** Lines 37-41. *)
Definition body_obj : pyval :=
  VDict [
    (py "propertyServiceUrl", VStr (py "https://z32oarlcp7.execute-api.us-east-1.amazonaws.com"));
    (py "mortgageServiceUrl", VStr (py "https://el0slr8sg5.execute-api.us-east-1.amazonaws.com"));
    (py "paymentServiceUrl", VStr (py "https://cmwxqd18ga.execute-api.us-east-1.amazonaws.com"))
  ].

(** Lines 43-72: the API Gateway v2 event, for the request id and the
    epoch read from the clock. *)
Definition event_of (BOOTSTRAP_SECRET : pystr) (request_id : Z) (time_text : pystr)
           (epoch_ms : Z) : pyval :=
  VDict [
    (py "version", VStr (py "2.0"));
    (py "routeKey", VStr (py "ANY /admin/{proxy+}"));
    (py "rawPath", VStr (py "/admin/demo-bootstrap"));
    (py "rawQueryString", VStr (py ""));
    (py "headers", VDict [
      (py "content-type", VStr (py "application/json"));
      (py "x-bootstrap-secret", VStr BOOTSTRAP_SECRET)
    ]);
    (py "requestContext", VDict [
      (py "accountId", VStr (py "anonymous"));
      (py "apiId", VStr (py "1oi4sd5b4i"));
      (py "domainName", VStr (py "1oi4sd5b4i.execute-api.us-east-1.amazonaws.com"));
      (py "domainPrefix", VStr (py "1oi4sd5b4i"));
      (py "http", VDict [
        (py "method", VStr (py "POST"));
        (py "path", VStr (py "/admin/demo-bootstrap"));
        (py "protocol", VStr (py "HTTP/1.1"));
        (py "sourceIp", VStr (py "127.0.0.1"));
        (py "userAgent", VStr (py "test-script"))
      ]);
      (py "requestId", VStr (py "test-" ++ Str.of_Z request_id));
      (py "routeKey", VStr (py "ANY /admin/{proxy+}"));
      (py "stage", VStr (py "$default"));
      (py "time", VStr time_text);
      (py "timeEpoch", VInt epoch_ms)
    ]);
    (py "body", VStr (json_dumps body_obj));
    (py "isBase64Encoded", VBool false)
  ].

(** The event of a run: [int(time.time())], the formatted UTC time and
    [int(time.time() * 1000)] come from the clock. *)
Definition build_event (w : world) (BOOTSTRAP_SECRET : pystr) : M pyval :=
  request_id <- lift (py_int_of_float (time_request_id w)) ;;
  epoch_ms <- lift (py_int_of_float
                      (SFmul PyFloat.prec PyFloat.emax (time_epoch w)
                             (binary_normalize PyFloat.prec PyFloat.emax 1000 0 false))) ;;
  ret (event_of BOOTSTRAP_SECRET request_id (utcnow_strftime w) epoch_ms).

Definition payload_path : pystr := py "/tmp/demo-bootstrap-payload.json".
Definition response_path : pystr := py "/tmp/demo-bootstrap-response.json".

(** Lines 77-79: [json.dump(event, f)] and the confirmation. *)
Definition write_payload (event : pyval) : M unit :=
  emit (WriteFile payload_path (json_dumps event)) ;;
  print (py "📦 Payload written to " ++ payload_path).

Definition invoke_argv : list pystr :=
  [py "aws"; py "lambda"; py "invoke"; py "--function-name";
   py "qshelter-user-service-staging-api"; py "--payload";
   py "file://" ++ payload_path; py "--cli-read-timeout"; py "180"; response_path].

(** Lines 82-109: invoke the Lambda and stop when the CLI fails. *)
Definition invoke (w : world) : M completed :=
  print [] ;;
  print (py "🚀 Invoking Lambda directly (bypassing API Gateway 30s limit)...") ;;
  print (py "   Function: qshelter-user-service-staging-api") ;;
  print [] ;;
  result <- subprocess_run invoke_argv (lambda_invoke w) ;;
  let elapsed := SFsub PyFloat.prec PyFloat.emax (time_end w) (time_start w) in
  print (py "⏱️  Lambda invocation took " ++ PyFloat.format_f false 1 elapsed ++ py "s") ;;
  if (returncode result =? 0)%Z then ret result
  else
    print (py "❌ AWS CLI error: " ++ stderr result) ;;
    sys_exit 1.

(** Lines 112-116: the metadata the CLI wrote on its standard output. *)
Definition inspect_meta (w : world) (result : completed) : M unit :=
  let invoke_meta := strip (stdout result) in
  match invoke_meta with
  | [] => ret tt
  | _ =>
    meta <- lift (json_loads (VStr invoke_meta)) ;;
    function_error <- lift (py_get meta (py "FunctionError") VNone) ;;
    if truthy function_error then
      shown <- lift (py_getitem meta (py "FunctionError")) ;;
      print (py "❌ Lambda function error: " ++ py_str (unicode_printable w) shown)
    else ret tt
  end.

(** Lines 131-132: the handler of a body that does not decode. *)
Definition report_raw_body (w : world) (body_str : pyval) : M pyval :=
  raw <- lift (py_slice_to 3000 body_str) ;;
  print (py "Raw body: " ++ py_str (unicode_printable w) raw) ;;
  sys_exit 1.

(** Lines 119-132: read the response file and decode its body. *)
Definition parse_response (w : world) : M pyval :=
  print [] ;;
  print (py "--- Response ---") ;;
  text <- read_file response_path (response_file w) ;;
  resp <- lift (json_loads (VStr text)) ;;
  status <- lift (py_get resp (py "statusCode") (VStr (py "N/A"))) ;;
  print (py "HTTP Status: " ++ py_str (unicode_printable w) status) ;;
  body_str <- lift (py_get resp (py "body") (VStr (py "{}"))) ;;
  try_except (lift (json_loads body_str)) (report_raw_body w body_str).

Section Render.

Variable isprintable : N -> bool.

Local Abbreviation str := (py_str isprintable).

(** Lines 140-142: one actor. *)
Definition render_actor (actor : pyval) : M unit :=
  name <- lift (py_getitem actor (py "name")) ;;
  email <- lift (py_getitem actor (py "email")) ;;
  role <- lift (py_getitem actor (py "role")) ;;
  id <- lift (py_getitem actor (py "id")) ;;
  id8 <- lift (py_slice_to 8 id) ;;
  print (py "     " ++ str name ++ py " (" ++ str email ++ py ") — " ++ str role
            ++ py " — " ++ str id8 ++ py "...").

(** Line 146: one organization. *)
Definition render_org (org : pyval) : M unit :=
  name <- lift (py_getitem org (py "name")) ;;
  type <- lift (py_getitem org (py "type")) ;;
  id <- lift (py_getitem org (py "id")) ;;
  id8 <- lift (py_slice_to 8 id) ;;
  print (py "     " ++ str name ++ py " (" ++ str type ++ py ") — " ++ str id8 ++ py "...").

(** Lines 158-159: one step. *)
Definition render_step (s : pyval) : M unit :=
  has_detail <- lift (py_get s (py "detail") VNone) ;;
  detail <- (if truthy has_detail
             then d <- lift (py_getitem s (py "detail")) ;; ret (py " — " ++ str d)
             else ret []) ;;
  step <- lift (py_getitem s (py "step")) ;;
  print (py "     ✅ " ++ str step ++ detail).

(** Lines 155-159: the steps section. *)
Definition render_steps (body : pyval) : M unit :=
  steps <- lift (py_get body (py "steps") (VList [])) ;;
  count <- lift (py_len steps) ;;
  print (py "   Steps (" ++ Str.of_Z (Z.of_nat count) ++ py "):") ;;
  each <- lift (py_iter steps) ;;
  for_each each render_step.

(** Lines 135-159: the summary of a successful bootstrap. *)
Definition render_success (body : pyval) : M unit :=
  print (py "✅ SUCCESS") ;;
  tenant <- lift (py_getitem body (py "tenantId")) ;;
  print (py "   Tenant: " ++ str tenant) ;;
  print [] ;;
  print (py "   Actors:") ;;
  actors <- lift (py_get body (py "actors") (VDict [])) ;;
  actor_items <- lift (py_items actors) ;;
  for_each actor_items (fun kv => render_actor (snd kv)) ;;
  print [] ;;
  print (py "   Organizations:") ;;
  orgs <- lift (py_get body (py "organizations") (VDict [])) ;;
  org_items <- lift (py_items orgs) ;;
  for_each org_items (fun kv => render_org (snd kv)) ;;
  print [] ;;
  prop <- lift (py_get body (py "property") (VDict [])) ;;
  title <- lift (py_get prop (py "title") VNone) ;;
  unit_number <- lift (py_get prop (py "unitNumber") VNone) ;;
  price <- lift (py_get prop (py "price") (VInt 0)) ;;
  price_text <- lift (py_format_comma_0f price) ;;
  print (py "   Property: " ++ str title ++ py " / " ++ str unit_number
            ++ py " — ₦" ++ price_text) ;;
  pm <- lift (py_get body (py "paymentMethod") (VDict [])) ;;
  pm_name <- lift (py_get pm (py "name") VNone) ;;
  pm_phases <- lift (py_get pm (py "phases") VNone) ;;
  print (py "   Payment Method: " ++ str pm_name ++ py " (" ++ str pm_phases ++ py " phases)") ;;
  print [] ;;
  render_steps body.

(** Lines 161-162: the failure report. *)
Definition render_failure (body : pyval) : M unit :=
  print (py "❌ FAILED") ;;
  print (slice_to 3000 (json_dumps_indent 2 body)).

(** Lines 134-162. *)
Definition render (body : pyval) : M unit :=
  success <- lift (py_get body (py "success") VNone) ;;
  if truthy success then render_success body else render_failure body.

End Render.

(** The whole script. *)
Definition main (w : world) : M unit :=
  BOOTSTRAP_SECRET <- fetch_secret w ;;
  event <- build_event w BOOTSTRAP_SECRET ;;
  write_payload event ;;
  result <- invoke w ;;
  inspect_meta w result ;;
  body <- parse_response w ;;
  render (unicode_printable w) body.

(** The script up to the payload file (lines 13-79), and up to the
    response (lines 13-116): prefixes of [main]. *)
Definition prepare_payload (w : world) : M unit :=
  BOOTSTRAP_SECRET <- fetch_secret w ;;
  event <- build_event w BOOTSTRAP_SECRET ;;
  write_payload event.

Definition before_response (w : world) : M unit :=
  prepare_payload w ;;
  result <- invoke w ;;
  inspect_meta w result.

(** The script after the payload file (lines 82-162). *)
Definition after_payload (w : world) : M unit :=
  result <- invoke w ;;
  inspect_meta w result ;;
  body <- parse_response w ;;
  render (unicode_printable w) body.

(** The event a run builds, if it gets that far. *)
Definition run_event (w : world) : option pyval :=
  match fetch_secret w with
  | (_, inr secret) =>
    match build_event w secret with
    | (_, inr event) => Some event
    | _ => None
    end
  | _ => None
  end.

(** The same environment with another answer of the parameter store. *)
Definition with_ssm_answer (w : world) (answer : option completed) : world :=
  {| unicode_printable := unicode_printable w;
     ssm_get_parameter := answer;
     time_request_id := time_request_id w;
     utcnow_strftime := utcnow_strftime w;
     time_epoch := time_epoch w;
     time_start := time_start w;
     lambda_invoke := lambda_invoke w;
     time_end := time_end w;
     response_file := response_file w |}.

(** What an operator observes of a run. *)
Definition run_effects (w : world) : list effect := fst (main w).
Definition run_printed (w : world) : list pystr := printed (run_effects w).
Definition run_exit_code (w : world) : Z := exit_code (snd (main w)).

(* ================================================================== *)
(** * Sample environments *)
(* ================================================================== *)

(** The response body of the specification's rendering example. *)
Definition sample_body_text : pystr :=
  pyq "{'success': true, 'tenantId': 't-1', 'actors': {}, 'organizations': {}, 'property': {'title':'Flat A','unitNumber':'12B','price':500000}, 'paymentMethod': {'name':'Installment','phases':3}, 'steps': [{'step':'create tenant'}]}".

Definition sample_body : pyval :=
  VDict [
    (py "success", VBool true);
    (py "tenantId", VStr (py "t-1"));
    (py "actors", VDict []);
    (py "organizations", VDict []);
    (py "property", VDict [(py "title", VStr (py "Flat A"));
                          (py "unitNumber", VStr (py "12B"));
                          (py "price", VInt 500000)]);
    (py "paymentMethod", VDict [(py "name", VStr (py "Installment"));
                               (py "phases", VInt 3)]);
    (py "steps", VList [VDict [(py "step", VStr (py "create tenant"))]])
  ].

(** The failure body of the specification's example. *)
Definition failure_body_text : pystr := pyq "{'success': false, 'error': 'boom'}".

Definition failure_body : pyval :=
  VDict [(py "success", VBool false); (py "error", VStr (py "boom"))].

(** A run in which both commands succeed: the parameter store answers
    [secret_out], the CLI writes [meta_out] on its standard output, and the
    response file holds [response]. *)
Definition sample_world (secret_out meta_out : pystr) (response : option pystr) : world :=
  {| unicode_printable := fun _ => true;
     ssm_get_parameter := Some {| returncode := 0; stdout := secret_out; stderr := [] |};
     time_request_id := PyFloat.of_decimal false 17621712005 (-1);
     utcnow_strftime := py "03/Nov/2026:12:00:00 +0000";
     time_epoch := PyFloat.of_decimal false 17621712006 (-1);
     time_start := PyFloat.of_decimal false 17621712007 (-1);
     lambda_invoke := Some {| returncode := 0; stdout := meta_out; stderr := [] |};
     time_end := PyFloat.of_decimal false 17621712129 (-1);
     response_file := response |}.

Definition sample_meta : pystr :=
  pyq "{'StatusCode': 200, 'ExecutedVersion': '$LATEST'}
".

(** The response file for a body text: [statusCode] 200 and the body as a
    JSON string. *)
Definition response_with_body (body_text : pystr) : pystr :=
  json_dumps (VDict [(py "statusCode", VInt 200); (py "body", VStr body_text)]).

(* ================================================================== *)
(** * Observations on a trace *)
(* ================================================================== *)

(** The effects other than [print]: the commands run and the files
    written and read. *)
Definition is_io (e : effect) : bool :=
  match e with
  | Print _ => false
  | _ => true
  end.

Definition io_effects (t : list effect) : list effect := filter is_io t.

(** The same environment with another answer of the invocation command,
    and with another response file. *)
Definition with_lambda_answer (w : world) (answer : option completed) : world :=
  {| unicode_printable := unicode_printable w;
     ssm_get_parameter := ssm_get_parameter w;
     time_request_id := time_request_id w;
     utcnow_strftime := utcnow_strftime w;
     time_epoch := time_epoch w;
     time_start := time_start w;
     lambda_invoke := answer;
     time_end := time_end w;
     response_file := response_file w |}.

(** A run whose commands succeed and whose response file holds [response]. *)
Definition answered_world (response : option pystr) : world :=
  sample_world (py "s3cr3t-value") sample_meta response.

(** A computation that touches nothing but the terminal. *)
Definition only_prints (A : Type) (m : M A) : Prop := io_effects (fst m) = [].

(** A computation in which [sys.exit] is only ever called with status 1. *)
Definition exits_with_1_only (A : Type) (m : M A) : Prop :=
  forall n : Z, snd m = inl (SystemExit n) -> n = 1%Z.

(** A value of an operation that raises no [SystemExit]. *)
Definition no_exit (A : Type) (r : res A) : Prop :=
  forall n : Z, r <> inl (SystemExit n).

(** A success body with actors, an organization, a price that is not a
    whole number and a step with a detail. *)
Definition full_body : pyval :=
  VDict [
    (py "success", VBool true);
    (py "tenantId", VStr (py "tenant-42"));
    (py "actors", VDict [
      (py "admin", VDict [(py "name", VStr (py "Ada")); (py "email", VStr (py "ada@example.com"));
                          (py "role", VStr (py "ADMIN"));
                          (py "id", VStr (py "0123456789abcdef"))]);
      (py "agent", VDict [(py "name", VStr (py "Bob")); (py "email", VStr (py "bob@example.com"));
                          (py "role", VStr (py "AGENT")); (py "id", VStr (py "b-7"))])]);
    (py "organizations", VDict [
      (py "bank", VDict [(py "name", VStr (py "First Bank")); (py "type", VStr (py "BANK"));
                         (py "id", VStr (py "org-000000001"))])]);
    (py "property", VDict [(py "title", VStr (py "Flat A")); (py "unitNumber", VInt 12);
                          (py "price", VFloat (PyFloat.of_decimal false 12345675 (-1)))]);
    (py "paymentMethod", VDict [(py "name", VStr (py "Installment")); (py "phases", VInt 3)]);
    (py "steps", VList [VDict [(py "step", VStr (py "create tenant"))];
                        VDict [(py "step", VStr (py "seed users"));
                               (py "detail", VStr (py "3 users"))]])
  ].

(** The characters that [json.dumps] writes as they are: printable
    ASCII other than the double quote and the backslash. *)
Definition json_plain (c : N) : bool :=
  ((32 <=? c) && (c <=? 126) && negb (c =? 34) && negb (c =? 92))%N.

(** [m] occurs in [s] as a contiguous part. *)
Definition occurs_in (m s : pystr) : Prop := exists pre post, s = pre ++ m ++ post.

(* ================================================================== *)
(** * Printing on a terminal *)
(* ================================================================== *)

(** [print] encodes its text for the terminal before it writes anything.
    With the UTF-8 encoder and its strict error handling, the default,
    every code point can be encoded except the surrogates, which
    [json.loads] makes from a lone [\udXXX] escape. *)
Definition is_surrogate (c : N) : bool := ((55296 <=? c) && (c <=? 57343))%N.

Definition encodable (s : pystr) : bool := negb (existsb is_surrogate s).

(** What of a trace happens on such a terminal: the first [print] of a
    text that cannot be encoded raises UnicodeEncodeError and writes
    nothing.  The flag tells whether a [print] failed. *)
Fixpoint on_terminal (t : list effect) : list effect * bool :=
  match t with
  | [] => ([], false)
  | Print s :: rest =>
    if encodable s then let '(t', failed) := on_terminal rest in (Print s :: t', failed)
    else ([], true)
  | e :: rest => let '(t', failed) := on_terminal rest in (e :: t', failed)
  end.

(** A computation of the script on the terminal.  No [print] of the
    script is inside a [try] (the one in the handler of line 130 is
    already outside of it), so the error of a failed [print] is never
    caught: the computation stops there.  UnicodeEncodeError is a
    ValueError. *)
Definition terminal (A : Type) (m : M A) : M A :=
  match on_terminal (fst m) with
  | (t, true) => (t, inl ValueError)
  | (t, false) => (t, snd m)
  end.

(** The run of the script on the terminal. *)
Definition terminal_run (w : world) : M unit := terminal (main w).

(* ================================================================== *)
(** * Properties *)
(* ================================================================== *)

(** ** The monad *)

Lemma bind_assoc (A B C : Type) (m : M A) (f : A -> M B) (g : B -> M C) :
  bind (bind m f) g = bind m (fun x => bind (f x) g).
Proof.
  destruct m as [t [e | a]]; simpl; [reflexivity |].
  destruct (f a) as [t1 [e1 | b]]; simpl; [reflexivity |].
  destruct (g b) as [t2 r2]. now rewrite app_assoc.
Qed.

Lemma bind_ext (A B : Type) (m : M A) (f g : A -> M B) :
  (forall a, f a = g a) -> bind m f = bind m g.
Proof.
  intros E. destruct m as [t [e | a]]; simpl; [reflexivity |]. now rewrite E.
Qed.

Lemma bind_value (A B : Type) (m : M A) (k : A -> M B) t a :
  m = (t, inr a) -> bind m k = (t ++ fst (k a), snd (k a)).
Proof. intros ->. simpl. now destruct (k a). Qed.

Lemma bind_raised (A B : Type) (m : M A) (k : A -> M B) t e :
  m = (t, inl e) -> bind m k = (t, inl e).
Proof. now intros ->. Qed.

Lemma printed_app (t1 t2 : list effect) :
  printed (t1 ++ t2) = printed t1 ++ printed t2.
Proof. unfold printed. apply flat_map_app. Qed.

(** [main] is its prefix up to the response, then the response stage. *)
Lemma main_stages (w : world) :
  main w =
  bind (before_response w)
       (fun _ => bind (parse_response w) (render (unicode_printable w))).
Proof.
  unfold main, before_response, prepare_payload.
  rewrite !bind_assoc. apply bind_ext; intros secret.
  rewrite (bind_assoc (build_event w secret) write_payload). reflexivity.
Qed.

Lemma main_after_payload (w : world) :
  main w = bind (prepare_payload w) (fun _ => after_payload w).
Proof.
  unfold main, prepare_payload, after_payload.
  rewrite !bind_assoc. apply bind_ext; intros secret.
  rewrite (bind_assoc (build_event w secret) write_payload). reflexivity.
Qed.

(** ** Strings *)

Lemma eqb_eq (a b : pystr) : Str.eqb a b = true <-> a = b.
Proof.
  revert b; induction a as [| x a IH]; intros [| y b]; simpl; split; try congruence; try easy.
  - intros H. apply andb_prop in H as [H1 H2].
    apply N.eqb_eq in H1. apply IH in H2. congruence.
  - intros H. injection H as -> ->. rewrite N.eqb_refl. simpl. now apply IH.
Qed.

Lemma lstrip_nil_iff (s : pystr) : lstrip s = [] <-> forallb isspace s = true.
Proof.
  induction s as [| c s IH]; simpl; [easy |].
  destruct (isspace c); simpl; [assumption | easy].
Qed.

Lemma lstrip_head (s : pystr) c r : lstrip s = c :: r -> isspace c = false.
Proof.
  induction s as [| x s IH]; simpl; [easy |].
  destruct (isspace x) eqn:E; [assumption | congruence].
Qed.

(** [strip] leaves nothing exactly for the empty and the all-whitespace
    strings. *)
Lemma strip_nil_iff (s : pystr) : strip s = [] <-> forallb isspace s = true.
Proof.
  unfold strip, rstrip. split.
  - intros H. apply lstrip_nil_iff.
    destruct (lstrip s) as [| c r] eqn:E; [reflexivity | exfalso].
    apply lstrip_head in E.
    assert (H' : lstrip (rev (c :: r)) = []).
    { apply (f_equal (@rev N)) in H. now rewrite rev_involutive in H. }
    apply lstrip_nil_iff in H'. rewrite forallb_forall in H'.
    specialize (H' c). rewrite <- in_rev in H'.
    rewrite H' in E; [discriminate | now left].
  - intros H. apply lstrip_nil_iff in H. now rewrite H.
Qed.

Lemma slice_to_length (A : Type) (n : nat) (s : list A) :
  n < List.length s -> List.length (slice_to n s) = n.
Proof. intros H. unfold slice_to. rewrite length_firstn. lia. Qed.

Lemma slice_to_all (A : Type) (n : nat) (s : list A) :
  List.length s <= n -> slice_to n s = s.
Proof. intros H. unfold slice_to. now apply firstn_all2. Qed.

Lemma slice_to_bound (A : Type) (n : nat) (s : list A) :
  List.length (slice_to n s) <= n.
Proof. unfold slice_to. rewrite length_firstn. lia. Qed.

(** ** The stages of the script *)

Lemma fetch_secret_ok (w : world) (c : completed) :
  ssm_get_parameter w = Some c -> strip (stdout c) <> [] ->
  fetch_secret w =
    ([Print (py "🔑 Fetching bootstrap secret from SSM..."); Run ssm_argv;
      Print (secret_preview (strip (stdout c)))],
     inr (strip (stdout c))).
Proof.
  intros Hc Hs. unfold fetch_secret. rewrite Hc. cbn.
  destruct (strip (stdout c)) as [| x r]; [congruence | reflexivity].
Qed.

Lemma fetch_secret_empty (w : world) (c : completed) :
  ssm_get_parameter w = Some c -> strip (stdout c) = [] ->
  fetch_secret w =
    ([Print (py "🔑 Fetching bootstrap secret from SSM..."); Run ssm_argv;
      Print (py "❌ Failed to get bootstrap secret")],
     inl (SystemExit 1)).
Proof.
  intros Hc Hs. unfold fetch_secret. rewrite Hc. cbn. now rewrite Hs.
Qed.

Lemma fetch_secret_value (w : world) t secret :
  fetch_secret w = (t, inr secret) ->
  exists c, ssm_get_parameter w = Some c /\ secret = strip (stdout c) /\ secret <> [].
Proof.
  unfold fetch_secret. destruct (ssm_get_parameter w) as [c |]; cbn; [| discriminate].
  destruct (strip (stdout c)) as [| x r] eqn:E; cbn; [discriminate |].
  intros H. injection H as _ <-. exists c. rewrite E. repeat split; congruence.
Qed.

Lemma build_event_effects (w : world) secret : fst (build_event w secret) = [].
Proof.
  unfold build_event.
  destruct (py_int_of_float (time_request_id w)); cbn; [reflexivity |].
  now destruct (py_int_of_float _).
Qed.

Lemma build_event_value (w : world) secret t event :
  build_event w secret = (t, inr event) ->
  exists request_id epoch_ms,
    event = event_of secret request_id (utcnow_strftime w) epoch_ms.
Proof.
  unfold build_event.
  destruct (py_int_of_float (time_request_id w)) as [e | rid]; cbn; [discriminate |].
  destruct (py_int_of_float _) as [e | ems]; cbn; [discriminate |].
  intros H. injection H as _ <-. now exists rid, ems.
Qed.

Lemma run_event_value (w : world) event :
  run_event w = Some event ->
  exists c request_id epoch_ms,
    ssm_get_parameter w = Some c /\ strip (stdout c) <> [] /\
    event = event_of (strip (stdout c)) request_id (utcnow_strftime w) epoch_ms.
Proof.
  unfold run_event.
  destruct (fetch_secret w) as [t [e | secret]] eqn:F; [discriminate |].
  destruct (build_event w secret) as [t' [e | ev]] eqn:B; [discriminate |].
  intros H. injection H as <-.
  apply fetch_secret_value in F as (c & Hc & -> & Hne).
  apply build_event_value in B as (rid & ems & ->).
  now exists c, rid, ems.
Qed.

Lemma prepare_payload_ok (w : world) t1 secret t2 event :
  fetch_secret w = (t1, inr secret) ->
  build_event w secret = (t2, inr event) ->
  prepare_payload w =
    (t1 ++ t2 ++ [WriteFile payload_path (json_dumps event);
                  Print (py "📦 Payload written to " ++ payload_path)],
     inr tt).
Proof.
  intros F B. unfold prepare_payload.
  rewrite (bind_value _ F). rewrite (bind_value _ B). reflexivity.
Qed.

Lemma run_event_written (w : world) event :
  run_event w = Some event ->
  In (WriteFile payload_path (json_dumps event)) (run_effects w).
Proof.
  unfold run_event, run_effects.
  destruct (fetch_secret w) as [t [e | secret]] eqn:F; [discriminate |].
  destruct (build_event w secret) as [t' [e | ev]] eqn:B; [discriminate |].
  intros H. injection H as <-.
  rewrite main_after_payload, (bind_value _ (prepare_payload_ok w F B)).
  cbn [fst]. rewrite !in_app_iff. left. right. right. now left.
Qed.

(** One step of the script: unfold the monad and the value operations,
    leaving the decoder and the formatting functions folded. *)
Ltac run_step0 :=
  cbv beta iota zeta
      delta [bind print emit lift ret raise sys_exit read_file subprocess_run
             try_except is_Exception fst snd app].

Ltac run_step :=
  cbv beta iota zeta
      delta [bind print emit lift ret raise sys_exit read_file subprocess_run
             try_except is_Exception fst snd app
             py_get py_getitem py_slice_to py_len py_iter py_items].

Lemma parse_response_raw (w : world) text resp status s :
  response_file w = Some text ->
  json_loads (VStr text) = inr resp ->
  py_get resp (py "statusCode") (VStr (py "N/A")) = inr status ->
  py_get resp (py "body") (VStr (py "{}")) = inr (VStr s) ->
  Loads.decode s = None ->
  parse_response w =
    ([Print []; Print (py "--- Response ---"); ReadFile response_path;
      Print (py "HTTP Status: " ++ py_str (unicode_printable w) status);
      Print (py "Raw body: " ++ slice_to 3000 s)],
     inl (SystemExit 1)).
Proof.
  intros Hf Ht Hs Hb Hd. unfold parse_response, report_raw_body.
  rewrite Hf. run_step0. rewrite Ht. run_step0. rewrite Hs. run_step0.
  rewrite Hb. run_step0. unfold json_loads. rewrite Hd. run_step. reflexivity.
Qed.



Lemma invoke_ok (w : world) (c : completed) :
  lambda_invoke w = Some c ->
  returncode c = 0%Z ->
  invoke w =
    ([Print [];
      Print (py "🚀 Invoking Lambda directly (bypassing API Gateway 30s limit)...");
      Print (py "   Function: qshelter-user-service-staging-api");
      Print [];
      Run invoke_argv;
      Print (py "⏱️  Lambda invocation took "
               ++ PyFloat.format_f false 1
                    (SFsub PyFloat.prec PyFloat.emax (time_end w) (time_start w))
               ++ py "s")],
     inr c).
Proof.
  intros Hc Hr. unfold invoke. rewrite Hc. run_step0. rewrite Hr. reflexivity.
Qed.

(** The effects of the script before the response are prints, commands
    and the payload file: the response file is not read. *)
Lemma fetch_secret_no_read (w : world) path :
  ~ In (ReadFile path) (fst (fetch_secret w)).
Proof.
  unfold fetch_secret. destruct (ssm_get_parameter w) as [c |]; run_step0.
  - destruct (strip (stdout c)); cbn; intros [H | [H | [H | []]]]; discriminate.
  - cbn. intros [H | [H | []]]; discriminate.
Qed.

Lemma prepare_payload_no_read (w : world) path :
  ~ In (ReadFile path) (fst (prepare_payload w)).
Proof.
  unfold prepare_payload.
  pose proof (@fetch_secret_no_read w path) as F.
  destruct (fetch_secret w) as [t1 [e | secret]]; [exact F |].
  unfold bind at 1.
  pose proof (build_event_effects w secret) as B.
  destruct (build_event w secret) as [t2 [e | event]]; cbn in B; subst t2.
  - cbn. now rewrite app_nil_r.
  - cbn. rewrite in_app_iff. intros [H | [H | [H | []]]]; try discriminate. now apply F.
Qed.

(** ** Printing on a terminal *)

Lemma encodable_app (a b : pystr) : encodable (a ++ b) = encodable a && encodable b.
Proof. unfold encodable. now rewrite existsb_app, negb_orb. Qed.

Lemma printed_map_print (lines : list pystr) : printed (map Print lines) = lines.
Proof.
  induction lines as [| l ls IH]; [reflexivity |]. cbn. f_equal. exact IH.
Qed.

(** When every text is encodable, the terminal shows the whole trace. *)
Lemma on_terminal_all (t : list effect) :
  forallb encodable (printed t) = true -> on_terminal t = (t, false).
Proof.
  induction t as [| e t IH]; [reflexivity |].
  destruct e as [s | argv | path content | path]; cbn [on_terminal];
    try (intros H; now rewrite (IH H)).
  change (printed (Print s :: t)) with (s :: printed t). cbn [forallb].
  intros H. apply andb_prop in H as [Hs Ht]. now rewrite Hs, (IH Ht).
Qed.

Lemma terminal_all (A : Type) (m : M A) :
  forallb encodable (printed (fst m)) = true -> terminal m = m.
Proof.
  intros H. unfold terminal. rewrite (on_terminal_all _ H). now destruct m.
Qed.

(** A failed [print] does not change an exit status of 1. *)
Lemma terminal_exit_1 (A : Type) (m : M A) :
  exit_code (snd m) = 1%Z -> exit_code (snd (terminal m)) = 1%Z.
Proof.
  intros H. unfold terminal. destruct (on_terminal (fst m)) as [t []]; [reflexivity | exact H].
Qed.

(** What the terminal shows is a prefix of the trace. *)
Lemma on_terminal_prefix (t : list effect) :
  exists rest, fst (on_terminal t) ++ rest = t.
Proof.
  induction t as [| e t (rest & IH)]; [now exists [] |].
  destruct e as [s | argv | path content | path]; cbn [on_terminal];
    try (destruct (on_terminal t) as [t' f]; exists rest; cbn in *; now rewrite IH).
  destruct (encodable s); [| now exists (Print s :: t)].
  destruct (on_terminal t) as [t' f]. exists rest. cbn in *. now rewrite IH.
Qed.

Lemma terminal_prefix (A : Type) (m : M A) :
  exists rest, fst (terminal m) ++ rest = fst m.
Proof.
  unfold terminal. destruct (on_terminal_prefix (fst m)) as (rest & H).
  exists rest. now destruct (on_terminal (fst m)) as [t []].
Qed.

Lemma printed_print (s : pystr) (t : list effect) : printed (Print s :: t) = s :: printed t.
Proof. reflexivity. Qed.

(* ================================================================== *)
(** * The claims of the specification *)
(* ================================================================== *)

(** C1.  The response body of the specification's example decodes to
    [sample_body], and rendering it prints, in this order: the success
    marker, the line [Tenant: t-1], the empty actors and organizations
    sections, the property line with [Flat A / 12B] and the price
    [500,000], the payment method, and a steps section of exactly one
    step, [create tenant], with no detail suffix; the rendering ends
    normally. *)
Theorem sample_body_rendering :
  json_loads (VStr sample_body_text) = inr sample_body /\
  forall isprintable : N -> bool,
    render isprintable sample_body =
      ([Print (py "✅ SUCCESS");
        Print (py "   Tenant: t-1");
        Print [];
        Print (py "   Actors:");
        Print [];
        Print (py "   Organizations:");
        Print [];
        Print (py "   Property: Flat A / 12B — ₦500,000");
        Print (py "   Payment Method: Installment (3 phases)");
        Print [];
        Print (py "   Steps (1):");
        Print (py "     ✅ create tenant")],
       inr tt).
Proof.
  split; [vm_compute; reflexivity |].
  intros isprintable. vm_compute. reflexivity.
Qed.

(** C2.  When the parameter store answers a secret that is not empty once
    stripped, the event of the run carries exactly that stripped secret
    under [x-bootstrap-secret], next to [content-type: application/json],
    and this event is what the run writes to the payload file. *)
Theorem secret_header_exact (w : world) (c : completed) (event : pyval) :
  ssm_get_parameter w = Some c ->
  strip (stdout c) <> [] ->
  run_event w = Some event ->
  exists headers,
    py_getitem event (py "headers") = inr headers /\
    py_getitem headers (py "x-bootstrap-secret") = inr (VStr (strip (stdout c))) /\
    py_getitem headers (py "content-type") = inr (VStr (py "application/json")) /\
    In (WriteFile payload_path (json_dumps event)) (run_effects w).
Proof.
  intros Hc Hne He.
  pose proof (run_event_written w He) as Hw.
  apply run_event_value in He as (c' & rid & ems & Hc' & _ & ->).
  rewrite Hc in Hc'. injection Hc' as <-.
  eexists. split; [| split; [| split]]; [vm_compute; reflexivity .. | exact Hw].
Qed.

Lemma secret_header_exact_witness :
  let w := sample_world (py " s3cr3t-value
") sample_meta (Some (response_with_body sample_body_text)) in
  exists event headers,
    run_event w = Some event /\
    py_getitem event (py "headers") = inr headers /\
    py_getitem headers (py "x-bootstrap-secret") = inr (VStr (py "s3cr3t-value")).
Proof.
  intros w.
  assert (He : exists event, run_event w = Some event) by (vm_compute; eauto).
  destruct He as [event He]. exists event.
  destruct (@secret_header_exact w
              {| returncode := 0; stdout := py " s3cr3t-value
"; stderr := [] |} event)
    as (headers & H1 & H2 & _).
  - reflexivity.
  - vm_compute. discriminate.
  - exact He.
  - exists headers. repeat split; assumption.
Defined.



(** C4.  When the output of the parameter store is empty or only
    whitespace, the run prints the failure line and exits with status 1;
    its only command is the secret fetch: no event is built, no file is
    written and the invocation command is not run. *)
Theorem empty_secret_aborts (w : world) (c : completed) :
  ssm_get_parameter w = Some c ->
  forallb isspace (stdout c) = true ->
  main w =
    ([Print (py "🔑 Fetching bootstrap secret from SSM..."); Run ssm_argv;
      Print (py "❌ Failed to get bootstrap secret")],
     inl (SystemExit 1)) /\
  run_exit_code w = 1%Z /\
  run_event w = None /\
  ~ In (Run invoke_argv) (run_effects w) /\
  (forall path content, ~ In (WriteFile path content) (run_effects w)).
Proof.
  intros Hc Hs. apply strip_nil_iff in Hs.
  pose proof (fetch_secret_empty w Hc Hs) as F.
  assert (Hm : main w =
    ([Print (py "🔑 Fetching bootstrap secret from SSM..."); Run ssm_argv;
      Print (py "❌ Failed to get bootstrap secret")], inl (SystemExit 1))).
  { unfold main. now rewrite (bind_raised _ F). }
  unfold run_exit_code, run_effects, run_event. rewrite Hm, F. cbn [fst snd exit_code].
  repeat split.
  - intros [H | [H | [H | []]]]; discriminate.
  - intros path content [H | [H | [H | []]]]; discriminate.
Qed.

Lemma empty_secret_aborts_witness :
  run_exit_code (sample_world (py "
") sample_meta (Some (response_with_body sample_body_text))) = 1%Z.
Proof.
  apply (@empty_secret_aborts
           (sample_world (py "
") sample_meta (Some (response_with_body sample_body_text)))
           {| returncode := 0; stdout := py "
"; stderr := [] |}).
  - reflexivity.
  - vm_compute. reflexivity.
Defined.

(** C5, as stated, fails on a terminal: a body string that is not valid
    JSON and holds a lone surrogate cannot be encoded, so the [print] of
    the handler raises and the raw body is never printed.  Here the body
    is the surrogate U+D83D followed by [ oops], written in the response
    file as the escape [\ud83d]; the last line printed is the status. *)
Lemma raw_body_with_surrogate_not_printed :
  let s := 55357%N :: py " oops" in
  let w := answered_world (Some (response_with_body s)) in
  snd (before_response w) = inr tt /\
  json_loads (VStr (response_with_body s)) =
    inr (VDict [(py "statusCode", VInt 200); (py "body", VStr s)]) /\
  Loads.decode s = None /\
  terminal_run w =
    (fst (before_response w)
       ++ [Print []; Print (py "--- Response ---"); ReadFile response_path;
           Print (py "HTTP Status: 200")],
     inl ValueError) /\
  ~ In (py "Raw body: " ++ slice_to 3000 s) (printed (fst (terminal_run w))).
Proof.
  intros s w.
  assert (T : terminal_run w =
              (fst (before_response w)
                 ++ [Print []; Print (py "--- Response ---"); ReadFile response_path;
                     Print (py "HTTP Status: 200")],
               inl ValueError)) by (vm_compute; reflexivity).
  split; [vm_compute; reflexivity |]. split; [vm_compute; reflexivity |].
  split; [vm_compute; reflexivity |]. split; [exact T |].
  rewrite T. vm_compute. intros H.
  repeat (destruct H as [H | H]; [discriminate H |]). exact H.
Qed.

(** C5, amended.  When the run reaches the response, the response file
    decodes to an object, and its [body] is a string that is not valid
    JSON, the run exits with status 1 and nothing is rendered; when the
    texts to print hold no lone surrogate, it prints [Raw body: ]
    followed by the body cut to at most 3000 characters, and nothing
    after it, before it exits. *)
Theorem undecodable_body_aborts (w : world) (text : pystr) (resp status : pyval)
        (s : pystr) :
  snd (before_response w) = inr tt ->
  response_file w = Some text ->
  json_loads (VStr text) = inr resp ->
  py_get resp (py "statusCode") (VStr (py "N/A")) = inr status ->
  py_get resp (py "body") (VStr (py "{}")) = inr (VStr s) ->
  Loads.decode s = None ->
  exit_code (snd (terminal_run w)) = 1%Z /\
  (exists rest,
      fst (terminal_run w) ++ rest =
      fst (before_response w)
        ++ [Print []; Print (py "--- Response ---"); ReadFile response_path;
            Print (py "HTTP Status: " ++ py_str (unicode_printable w) status);
            Print (py "Raw body: " ++ slice_to 3000 s)]) /\
  List.length (slice_to 3000 s) <= 3000 /\
  (forallb encodable (printed (fst (before_response w))) = true ->
   encodable (py_str (unicode_printable w) status) = true ->
   encodable (slice_to 3000 s) = true ->
   terminal_run w =
     (fst (before_response w)
        ++ [Print []; Print (py "--- Response ---"); ReadFile response_path;
            Print (py "HTTP Status: " ++ py_str (unicode_printable w) status);
            Print (py "Raw body: " ++ slice_to 3000 s)],
      inl (SystemExit 1))).
Proof.
  intros H0 Hf Ht Hs Hb Hd.
  pose proof (parse_response_raw w Hf Ht Hs Hb Hd) as P.
  assert (Hm : main w =
               (fst (before_response w)
                  ++ [Print []; Print (py "--- Response ---"); ReadFile response_path;
                      Print (py "HTTP Status: " ++ py_str (unicode_printable w) status);
                      Print (py "Raw body: " ++ slice_to 3000 s)],
                inl (SystemExit 1))).
  { rewrite main_stages.
    destruct (before_response w) as [t0 [e | []]]; [discriminate |].
    unfold bind at 1. now rewrite (bind_raised _ P). }
  unfold terminal_run. split; [| split; [| split]].
  - apply terminal_exit_1. now rewrite Hm.
  - destruct (terminal_prefix (main w)) as (rest & R). exists rest.
    rewrite R. now rewrite Hm.
  - apply slice_to_bound.
  - intros E0 E1 E2. rewrite Hm. apply terminal_all. cbn [fst].
    rewrite printed_app, forallb_app, E0.
    change (printed [Print []; Print (py "--- Response ---"); ReadFile response_path;
                     Print (py "HTTP Status: " ++ py_str (unicode_printable w) status);
                     Print (py "Raw body: " ++ slice_to 3000 s)])
      with [[]; py "--- Response ---";
            py "HTTP Status: " ++ py_str (unicode_printable w) status;
            py "Raw body: " ++ slice_to 3000 s].
    cbn [forallb andb]. rewrite !encodable_app, E1, E2. reflexivity.
Qed.

Lemma undecodable_body_aborts_witness :
  let w := answered_world (Some (response_with_body (py "<html>Bad Gateway</html>"))) in
  exit_code (snd (terminal_run w)) = 1%Z /\
  last (printed (fst (terminal_run w))) [] = py "Raw body: <html>Bad Gateway</html>".
Proof.
  intros w.
  destruct (@undecodable_body_aborts w
              (response_with_body (py "<html>Bad Gateway</html>"))
              (VDict [(py "statusCode", VInt 200);
                      (py "body", VStr (py "<html>Bad Gateway</html>"))])
              (VInt 200)
              (py "<html>Bad Gateway</html>"))
    as (X & _ & _ & T); try (vm_compute; reflexivity).
  split; [exact X |].
  rewrite T; vm_compute; reflexivity.
Defined.



(** The failure report of the specification's example. *)
Example failure_body_report (isprintable : N -> bool) :
  json_loads (VStr failure_body_text) = inr failure_body /\
  render isprintable failure_body =
    ([Print (py "❌ FAILED");
      Print (pyq "{
  'success': false,
  'error': 'boom'
}")],
     inr tt).
Proof. split; vm_compute; reflexivity. Qed.

(** C7.  The two places that print a body cut it with [[:3000]]: the
    text after [Raw body: ] and the indented failure JSON are the whole
    text when it has at most 3000 characters, and exactly its first 3000
    characters when it is longer. *)
Theorem printed_bodies_truncated (w : world) (s : pystr) (body : pyval) :
  exists shown_raw shown_failure,
    fst (report_raw_body w (VStr s)) = [Print (py "Raw body: " ++ shown_raw)] /\
    fst (render_failure body) = [Print (py "❌ FAILED"); Print shown_failure] /\
    (3000 < List.length s ->
     List.length shown_raw = 3000 /\ shown_raw = firstn 3000 s) /\
    (List.length s <= 3000 -> shown_raw = s) /\
    (3000 < List.length (json_dumps_indent 2 body) ->
     List.length shown_failure = 3000 /\
     shown_failure = firstn 3000 (json_dumps_indent 2 body)) /\
    (List.length (json_dumps_indent 2 body) <= 3000 ->
     shown_failure = json_dumps_indent 2 body).
Proof.
  exists (slice_to 3000 s), (slice_to 3000 (json_dumps_indent 2 body)).
  split; [reflexivity |]. split; [reflexivity |].
  split; [| split; [| split]].
  - intros L. split; [now apply slice_to_length | reflexivity].
  - intros L. now apply slice_to_all.
  - intros L. split; [now apply slice_to_length | reflexivity].
  - intros L. now apply slice_to_all.
Qed.

Lemma printed_bodies_truncated_witness :
  exists shown,
    fst (report_raw_body (sample_world [] [] None) (VStr (repeat 120%N 3001)))
      = [Print (py "Raw body: " ++ shown)] /\
    List.length shown = 3000.
Proof.
  destruct (@printed_bodies_truncated (sample_world [] [] None)
              (repeat 120%N 3001) failure_body)
    as (shown_raw & shown_failure & E & _ & L & _).
  exists shown_raw. split; [exact E |].
  apply L. rewrite repeat_length. apply Nat.leb_le. vm_compute. reflexivity.
Defined.




(** ** The secret preview *)

Lemma build_event_cases (w : world) :
  (exists e, forall secret, build_event w secret = ([], inl e)) \/
  (exists request_id epoch_ms, forall secret,
      build_event w secret =
        ([], inr (event_of secret request_id (utcnow_strftime w) epoch_ms))).
Proof.
  unfold build_event.
  destruct (py_int_of_float (time_request_id w)) as [e | rid].
  - left. exists e. reflexivity.
  - destruct (py_int_of_float _) as [e | ems].
    + left. exists e. reflexivity.
    + right. exists rid, ems. reflexivity.
Qed.

(** What a run prints and how it exits, when the secret is present: the
    secret occurs only under [secret_preview]. *)
Lemma run_with_secret (w : world) (c : completed) :
  strip (stdout c) <> [] ->
  exists tail : list pystr,
    (forall c' : completed,
        strip (stdout c') <> [] ->
        run_printed (with_ssm_answer w (Some c')) =
          py "🔑 Fetching bootstrap secret from SSM..."
             :: secret_preview (strip (stdout c')) :: tail) /\
    (forall c' : completed,
        strip (stdout c') <> [] ->
        run_exit_code (with_ssm_answer w (Some c')) =
        run_exit_code (with_ssm_answer w (Some c))).
Proof.
  intros Hne.
  assert (A : forall a, after_payload (with_ssm_answer w a) = after_payload w)
    by reflexivity.
  assert (B : forall a secret, build_event (with_ssm_answer w a) secret = build_event w secret)
    by reflexivity.
  assert (F : forall c' : completed, strip (stdout c') <> [] ->
              fetch_secret (with_ssm_answer w (Some c')) =
                ([Print (py "🔑 Fetching bootstrap secret from SSM..."); Run ssm_argv;
                  Print (secret_preview (strip (stdout c')))],
                 inr (strip (stdout c'))))
    by (intros c' H; now apply fetch_secret_ok).
  destruct (build_event_cases w) as [[e E] | (rid & ems & E)].
  - exists []. split; intros c' Hc'.
    + unfold run_printed, run_effects, main.
      rewrite (bind_value _ (F c' Hc')), B, E. reflexivity.
    + unfold run_exit_code, main.
      rewrite (bind_value _ (F c' Hc')), (bind_value _ (F c Hne)), !B, !E. reflexivity.
  - exists ((py "📦 Payload written to " ++ payload_path)
               :: printed (fst (after_payload w))).
    assert (P : forall c' : completed, strip (stdout c') <> [] ->
              prepare_payload (with_ssm_answer w (Some c')) =
                ([Print (py "🔑 Fetching bootstrap secret from SSM..."); Run ssm_argv;
                  Print (secret_preview (strip (stdout c')))]
                   ++ [] ++ [WriteFile payload_path
                               (json_dumps (event_of (strip (stdout c')) rid
                                                     (utcnow_strftime w) ems));
                             Print (py "📦 Payload written to " ++ payload_path)],
                 inr tt)).
    { intros c' Hc'. apply (prepare_payload_ok _ (F c' Hc')). rewrite B. apply E. }
    split; intros c' Hc'.
    + unfold run_printed, run_effects. rewrite main_after_payload.
      rewrite (bind_value _ (P c' Hc')), A. cbn [fst]. rewrite printed_app. reflexivity.
    + unfold run_exit_code. rewrite !main_after_payload.
      rewrite (bind_value _ (P c' Hc')), (bind_value _ (P c Hne)), !A. reflexivity.
Qed.

(** C8, as stated, fails: a secret of at most five characters is printed
    in full by the preview.  Here the secret is [abc]. *)
Lemma short_secret_printed_in_full :
  ~ (forall (w : world) (c : completed),
        ssm_get_parameter w = Some c ->
        strip (stdout c) <> [] ->
        forall line : pystr,
          In line (run_printed w) -> Str.contains (strip (stdout c)) line = false).
Proof.
  intros H.
  specialize (H (sample_world (py "abc
") sample_meta None)
                {| returncode := 0; stdout := py "abc
"; stderr := [] |}
                eq_refl).
  assert (Hne : strip (py "abc
") <> []) by (vm_compute; discriminate).
  specialize (H Hne (py "   Got secret: abc...")).
  assert (Hin : In (py "   Got secret: abc...")
                   (run_printed (sample_world (py "abc
") sample_meta None))).
  { vm_compute. right. left. reflexivity. }
  specialize (H Hin). clear Hin Hne. vm_compute in H. discriminate H.
Qed.

(** C8, amended.  The preview is [   Got secret: ], the first five
    characters of the secret and three dots, and it is the only place
    where the run prints anything of the secret: two runs in the same
    environment whose secrets agree on their first five characters print
    the same lines and exit with the same status. *)
Theorem secret_preview_depends_on_prefix (w : world) (c1 c2 : completed) :
  strip (stdout c1) <> [] ->
  strip (stdout c2) <> [] ->
  slice_to 5 (strip (stdout c1)) = slice_to 5 (strip (stdout c2)) ->
  In (py "   Got secret: " ++ slice_to 5 (strip (stdout c1)) ++ py "...")
     (run_printed (with_ssm_answer w (Some c1))) /\
  run_printed (with_ssm_answer w (Some c1)) = run_printed (with_ssm_answer w (Some c2)) /\
  run_exit_code (with_ssm_answer w (Some c1)) = run_exit_code (with_ssm_answer w (Some c2)).
Proof.
  intros H1 H2 E.
  destruct (@run_with_secret w c1 H1) as (tail & P & X).
  rewrite (P c1 H1), (P c2 H2). unfold secret_preview. rewrite E.
  repeat split.
  - right. left. reflexivity.
  - symmetry. apply (X c2 H2).
Qed.

Lemma secret_preview_depends_on_prefix_witness :
  let w := sample_world [] sample_meta (Some (response_with_body sample_body_text)) in
  let c1 := {| returncode := 0; stdout := py "s3cr3t-value-one"; stderr := [] |} in
  let c2 := {| returncode := 0; stdout := py "s3cr3t-other"; stderr := [] |} in
  In (py "   Got secret: s3cr3...") (run_printed (with_ssm_answer w (Some c1))) /\
  run_printed (with_ssm_answer w (Some c1)) = run_printed (with_ssm_answer w (Some c2)).
Proof.
  intros w c1 c2.
  destruct (@secret_preview_depends_on_prefix w c1 c2) as (A & B & _).
  - vm_compute. discriminate.
  - vm_compute. discriminate.
  - vm_compute. reflexivity.
  - split; [exact A | exact B].
Defined.

(** ** The steps section *)

Lemma truthy_get_getitem (s : pyval) (k : pystr) (x : pyval) :
  py_get s k VNone = inr x -> truthy x = true -> py_getitem s k = inr x.
Proof.
  destruct s; try discriminate. cbn.
  destruct (dict_lookup k members); intros H T; injection H as <-;
    [reflexivity | discriminate].
Qed.

Lemma render_step_line (isprintable : N -> bool) (s name detail : pyval) :
  py_getitem s (py "step") = inr name ->
  py_get s (py "detail") VNone = inr detail ->
  render_step isprintable s =
    ([Print (py "     ✅ " ++ py_str isprintable name
                ++ (if truthy detail then py " — " ++ py_str isprintable detail else []))],
     inr tt).
Proof.
  intros Hn Hd. unfold render_step. rewrite Hd. run_step0.
  destruct (truthy detail) eqn:T.
  - rewrite (truthy_get_getitem s (py "detail") Hd T). run_step0. rewrite Hn. reflexivity.
  - run_step0. rewrite Hn. reflexivity.
Qed.

Lemma for_each_prints (A : Type) (body : A -> M unit) (xs : list A) (lines : list pystr) :
  Forall2 (fun x line => body x = ([Print line], inr tt)) xs lines ->
  for_each xs body = (map Print lines, inr tt).
Proof.
  induction 1 as [| x line xs lines Hx _ IH]; [reflexivity |].
  cbn [for_each map]. now rewrite (bind_value _ Hx), IH.
Qed.




(* ================================================================== *)
(** * Further properties of the script *)
(* ================================================================== *)

(** ** What the stages can do *)

Lemma io_effects_app (t1 t2 : list effect) :
  io_effects (t1 ++ t2) = io_effects t1 ++ io_effects t2.
Proof. apply filter_app. Qed.

Lemma bind_fst (A B : Type) (m : M A) (k : A -> M B) :
  fst (bind m k) =
  fst m ++ match snd m with inr a => fst (k a) | inl _ => [] end.
Proof.
  destruct m as [t [e | a]]; cbn; [now rewrite app_nil_r |].
  now destruct (k a).
Qed.

Lemma bind_snd (A B : Type) (m : M A) (k : A -> M B) :
  snd (bind m k) = match snd m with inr a => snd (k a) | inl e => inl e end.
Proof.
  destruct m as [t [e | a]]; cbn; [reflexivity |]. now destruct (k a).
Qed.

Lemma bind_returns (A B : Type) (m : M A) (k : A -> M B) (b : B) :
  snd (bind m k) = inr b -> exists a, snd m = inr a /\ snd (k a) = inr b.
Proof.
  rewrite bind_snd. destruct (snd m) as [e | a]; [discriminate |]. now exists a.
Qed.

Lemma only_prints_bind (A B : Type) (m : M A) (k : A -> M B) :
  only_prints m -> (forall a, only_prints (k a)) -> only_prints (bind m k).
Proof.
  unfold only_prints. intros Hm Hk. rewrite bind_fst, io_effects_app, Hm.
  destruct (snd m); [reflexivity | apply Hk].
Qed.

Lemma only_prints_lift (A : Type) (r : res A) : only_prints (lift r).
Proof. reflexivity. Qed.

Lemma only_prints_ret (A : Type) (a : A) : only_prints (ret a).
Proof. reflexivity. Qed.

Lemma only_prints_print (s : pystr) : only_prints (print s).
Proof. reflexivity. Qed.

Lemma only_prints_exit (A : Type) (n : Z) : only_prints (@sys_exit A n).
Proof. reflexivity. Qed.

Lemma only_prints_for_each (A : Type) (xs : list A) (body : A -> M unit) :
  (forall x, only_prints (body x)) -> only_prints (for_each xs body).
Proof.
  intros H. induction xs as [| x xs IH]; [reflexivity |].
  cbn [for_each]. apply only_prints_bind; [apply H | intros _; exact IH].
Qed.

Lemma only_prints_try (A : Type) (m handler : M A) :
  only_prints m -> only_prints handler -> only_prints (try_except m handler).
Proof.
  unfold only_prints, try_except. intros Hm Hh.
  destruct m as [t [e | a]]; [| exact Hm].
  destruct (is_Exception e); [| exact Hm].
  destruct handler as [t' r]. cbn [fst] in *. now rewrite io_effects_app, Hm, Hh.
Qed.

Ltac only_prints_step :=
  repeat first
    [ apply only_prints_lift | apply only_prints_ret | apply only_prints_print
    | apply only_prints_exit
    | apply only_prints_for_each; intros ?
    | apply only_prints_bind; [| intros ?]
    | match goal with |- only_prints (if ?b then _ else _) => destruct b end ].

Lemma render_only_prints (isprintable : N -> bool) (body : pyval) :
  only_prints (render isprintable body).
Proof.
  unfold render, render_success, render_failure, render_steps, render_step,
    render_actor, render_org.
  only_prints_step.
Qed.

Lemma inspect_meta_only_prints (w : world) (c : completed) :
  only_prints (inspect_meta w c).
Proof.
  unfold inspect_meta. destruct (strip (stdout c)); only_prints_step.
Qed.

(** The commands and files of each stage. *)
Lemma fetch_secret_io (w : world) : io_effects (fst (fetch_secret w)) = [Run ssm_argv].
Proof.
  unfold fetch_secret. destruct (ssm_get_parameter w) as [c |]; [| reflexivity].
  run_step0. now destruct (strip (stdout c)).
Qed.

Lemma write_payload_io (event : pyval) :
  io_effects (fst (write_payload event)) = [WriteFile payload_path (json_dumps event)].
Proof. reflexivity. Qed.

Lemma invoke_io (w : world) : io_effects (fst (invoke w)) = [Run invoke_argv].
Proof.
  unfold invoke. destruct (lambda_invoke w) as [c |]; [| reflexivity].
  run_step0. now destruct (returncode c =? 0)%Z.
Qed.

Lemma parse_response_io (w : world) :
  io_effects (fst (parse_response w)) = [ReadFile response_path].
Proof.
  unfold parse_response, report_raw_body.
  destruct (response_file w) as [text |]; run_step0; [| reflexivity].
  destruct (json_loads (VStr text)) as [e | resp]; run_step0; [reflexivity |].
  destruct (py_get resp (py "statusCode") (VStr (py "N/A"))) as [e | status];
    run_step0; [reflexivity |].
  destruct (py_get resp (py "body") (VStr (py "{}"))) as [e | body_str];
    run_step0; [reflexivity |].
  destruct (json_loads body_str) as [e | body]; run_step0; [| reflexivity].
  destruct e; try reflexivity;
    destruct (py_slice_to 3000 body_str); reflexivity.
Qed.

(** ** The exit status *)

Lemma exits_bind (A B : Type) (m : M A) (k : A -> M B) :
  exits_with_1_only m -> (forall a, exits_with_1_only (k a)) ->
  exits_with_1_only (bind m k).
Proof.
  unfold exits_with_1_only. intros Hm Hk n. rewrite bind_snd.
  destruct (snd m) as [e | a] eqn:E; [intros H; apply Hm; congruence | apply Hk].
Qed.

Lemma exits_lift (A : Type) (r : res A) : no_exit r -> exits_with_1_only (lift r).
Proof. intros H n E. destruct (H n E). Qed.

Lemma exits_ret (A : Type) (a : A) : exits_with_1_only (ret a).
Proof. intros n E. discriminate. Qed.

Lemma exits_print (s : pystr) : exits_with_1_only (print s).
Proof. intros n E. discriminate. Qed.

Lemma exits_exit_1 (A : Type) : exits_with_1_only (@sys_exit A 1).
Proof. intros n E. cbn in E. congruence. Qed.

Lemma exits_for_each (A : Type) (xs : list A) (body : A -> M unit) :
  (forall x, exits_with_1_only (body x)) -> exits_with_1_only (for_each xs body).
Proof.
  intros H. induction xs as [| x xs IH]; [apply exits_ret |].
  cbn [for_each]. apply exits_bind; [apply H | intros _; exact IH].
Qed.

Lemma exits_try (A : Type) (m handler : M A) :
  exits_with_1_only m -> exits_with_1_only handler ->
  exits_with_1_only (try_except m handler).
Proof.
  unfold exits_with_1_only, try_except. intros Hm Hh n.
  destruct m as [t [e | a]]; [| apply Hm].
  destruct (is_Exception e); [| apply Hm].
  destruct handler as [t' r]. apply Hh.
Qed.

Lemma exits_run (argv : list pystr) (answer : option completed) :
  exits_with_1_only (subprocess_run argv answer).
Proof. intros n. now destruct answer. Qed.

Lemma exits_read (path : pystr) (content : option pystr) :
  exits_with_1_only (read_file path content).
Proof. intros n. now destruct content. Qed.

(** The operations on values raise ordinary exceptions only. *)
Lemma no_exit_get (v : pyval) (k : pystr) (d : pyval) : no_exit (py_get v k d).
Proof. intros n. now destruct v. Qed.

Lemma no_exit_getitem (v : pyval) (k : pystr) : no_exit (py_getitem v k).
Proof.
  intros n. destruct v; try discriminate. cbn. now destruct (dict_lookup k members).
Qed.

Lemma no_exit_items (v : pyval) : no_exit (py_items v).
Proof. intros n. now destruct v. Qed.

Lemma no_exit_slice (k : nat) (v : pyval) : no_exit (py_slice_to k v).
Proof. intros n. now destruct v. Qed.

Lemma no_exit_len (v : pyval) : no_exit (py_len v).
Proof. intros n. now destruct v. Qed.

Lemma no_exit_iter (v : pyval) : no_exit (py_iter v).
Proof. intros n. now destruct v. Qed.

Lemma no_exit_format (v : pyval) : no_exit (py_format_comma_0f v).
Proof.
  intros n. destruct v; try discriminate. cbn. now destruct (PyFloat.of_int z).
Qed.

Lemma no_exit_int (x : spec_float) : no_exit (py_int_of_float x).
Proof. intros n. unfold py_int_of_float. now destruct (PyFloat.to_int x) as [[] |]. Qed.

Lemma no_exit_loads (v : pyval) : no_exit (json_loads v).
Proof.
  intros n. destruct v; try discriminate. cbn. now destruct (Loads.decode s).
Qed.

Ltac exits_step :=
  repeat first
    [ apply exits_ret | apply exits_print | apply exits_exit_1
    | apply exits_run | apply exits_read
    | apply exits_lift;
      first [ apply no_exit_get | apply no_exit_getitem | apply no_exit_items
            | apply no_exit_slice | apply no_exit_len | apply no_exit_iter
            | apply no_exit_format | apply no_exit_int | apply no_exit_loads ]
    | apply exits_for_each; intros ?
    | apply exits_try
    | apply exits_bind; [| intros ?]
    | match goal with
      | |- exits_with_1_only (if ?b then _ else _) => destruct b
      | |- exits_with_1_only (match ?s with [] => _ | _ :: _ => _ end) => destruct s
      end ].

Lemma main_exits_with_1_only (w : world) : exits_with_1_only (main w).
Proof.
  unfold main, fetch_secret, build_event, write_payload, invoke, inspect_meta,
    parse_response, report_raw_body, render, render_success, render_failure,
    render_steps, render_step, render_actor, render_org.
  exits_step.
Qed.


(** ** Whole runs *)

Lemma exit_zero_returns (w : world) : run_exit_code w = 0%Z -> snd (main w) = inr tt.
Proof.
  unfold run_exit_code. pose proof (@main_exits_with_1_only w) as T.
  destruct (snd (main w)) as [e | []] eqn:E; [| reflexivity].
  destruct e; cbn; try discriminate.
  intros ->. now apply T in E.
Qed.

Lemma invoke_returns (w : world) (result : completed) :
  snd (invoke w) = inr result ->
  lambda_invoke w = Some result /\ returncode result = 0%Z.
Proof.
  unfold invoke. destruct (lambda_invoke w) as [c |]; run_step0; [| discriminate].
  destruct (returncode c =? 0)%Z eqn:E; cbn; [| discriminate].
  intros H. injection H as <-. split; [reflexivity | now apply Z.eqb_eq].
Qed.

Lemma invoke_failed (w : world) (c : completed) :
  lambda_invoke w = Some c ->
  returncode c <> 0%Z ->
  invoke w =
    ([Print [];
      Print (py "🚀 Invoking Lambda directly (bypassing API Gateway 30s limit)...");
      Print (py "   Function: qshelter-user-service-staging-api");
      Print [];
      Run invoke_argv;
      Print (py "⏱️  Lambda invocation took "
               ++ PyFloat.format_f false 1
                    (SFsub PyFloat.prec PyFloat.emax (time_end w) (time_start w))
               ++ py "s");
      Print (py "❌ AWS CLI error: " ++ stderr c)],
     inl (SystemExit 1)).
Proof.
  intros Hc Hr. unfold invoke. rewrite Hc. run_step0.
  apply Z.eqb_neq in Hr. rewrite Hr. reflexivity.
Qed.

Lemma render_marker (isprintable : N -> bool) (body : pyval) (r : unit) :
  snd (render isprintable body) = inr r ->
  In (py "✅ SUCCESS") (printed (fst (render isprintable body))) \/
  In (py "❌ FAILED") (printed (fst (render isprintable body))).
Proof.
  unfold render. rewrite bind_snd, bind_fst.
  destruct (py_get body (py "success") VNone) as [e | flag]; cbn [lift fst snd app];
    [discriminate |].
  intros _. destruct (truthy flag).
  - left. unfold render_success. rewrite bind_fst. now left.
  - right. now left.
Qed.

(** X1.  In every run, the commands run and the files touched are, in
    this order and with nothing else: the secret fetch, the payload file,
    the invocation and the response file; a run that stops early leaves
    out the rest.  The arguments of both commands and both paths are
    constants of the script: nothing read from the environment, the
    secret in particular, reaches a command line. *)
Theorem run_io_order (w : world) :
  exists content rest,
    io_effects (run_effects w) ++ rest =
    [Run ssm_argv; WriteFile payload_path content; Run invoke_argv;
     ReadFile response_path].
Proof.
  unfold run_effects, main.
  rewrite bind_fst, io_effects_app, fetch_secret_io.
  destruct (snd (fetch_secret w)) as [e | secret];
    [exists [], [WriteFile payload_path []; Run invoke_argv; ReadFile response_path];
     reflexivity |].
  rewrite bind_fst, io_effects_app, build_event_effects.
  destruct (snd (build_event w secret)) as [e | event];
    [exists [], [WriteFile payload_path []; Run invoke_argv; ReadFile response_path];
     reflexivity |].
  exists (json_dumps event).
  rewrite bind_fst, io_effects_app, write_payload_io.
  replace (snd (write_payload event)) with (@inr pyexn unit tt) by reflexivity.
  rewrite bind_fst, io_effects_app, invoke_io.
  destruct (snd (invoke w)) as [e | result];
    [exists [ReadFile response_path]; reflexivity |].
  rewrite bind_fst, io_effects_app, (inspect_meta_only_prints w result).
  destruct (snd (inspect_meta w result)) as [e | []];
    [exists [ReadFile response_path]; reflexivity |].
  rewrite bind_fst, io_effects_app, parse_response_io.
  exists [].
  destruct (snd (parse_response w)) as [e | body]; [reflexivity |].
  now rewrite (render_only_prints (unicode_printable w) body).
Qed.

(** X2.  Whatever the environment answers, the exit status of the script
    is 0 or 1: [sys.exit] is only called with 1, and an uncaught
    exception gives 1. *)
Theorem exit_status_zero_or_one (w : world) :
  run_exit_code w = 0%Z \/ run_exit_code w = 1%Z.
Proof.
  unfold run_exit_code. pose proof (@main_exits_with_1_only w) as T.
  destruct (snd (main w)) as [e | u] eqn:E; [| now left].
  right. destruct e; try reflexivity. cbn. now apply T.
Qed.

(** X3.  A run that exits with status 0 went through every stage: both
    commands ran and the invocation command returned 0, the event was
    written to the payload file, the response file was read, and the
    response was rendered as a success or as a failure. *)
Theorem exit_zero_means_rendered (w : world) :
  run_exit_code w = 0%Z ->
  exists (result : completed) (event : pyval),
    lambda_invoke w = Some result /\ returncode result = 0%Z /\
    run_event w = Some event /\
    io_effects (run_effects w) =
      [Run ssm_argv; WriteFile payload_path (json_dumps event); Run invoke_argv;
       ReadFile response_path] /\
    (In (py "✅ SUCCESS") (run_printed w) \/ In (py "❌ FAILED") (run_printed w)).
Proof.
  intros H. apply exit_zero_returns in H. unfold main in H.
  apply bind_returns in H as (secret & F & H).
  apply bind_returns in H as (event & B & H).
  apply bind_returns in H as ([] & W & H).
  apply bind_returns in H as (result & I & H).
  apply bind_returns in H as ([] & Mt & H).
  apply bind_returns in H as (body & P & H).
  exists result, event.
  destruct (invoke_returns w I) as [Hc Hr].
  assert (E : fst (main w) =
              fst (fetch_secret w) ++ fst (build_event w secret)
                ++ fst (write_payload event) ++ fst (invoke w)
                ++ fst (inspect_meta w result) ++ fst (parse_response w)
                ++ fst (render (unicode_printable w) body)).
  { unfold main. rewrite bind_fst, F. rewrite bind_fst, B. rewrite bind_fst, W.
    rewrite bind_fst, I. rewrite bind_fst, Mt. rewrite bind_fst, P. reflexivity. }
  unfold run_printed, run_effects. rewrite E.
  split; [exact Hc |]. split; [exact Hr |]. split; [| split].
  - unfold run_event.
    destruct (fetch_secret w) as [t1 r1]. cbn in F. subst r1.
    destruct (build_event w secret) as [t2 r2]. cbn in B. now subst r2.
  - rewrite !io_effects_app, fetch_secret_io, build_event_effects, write_payload_io,
      invoke_io, (inspect_meta_only_prints w result), parse_response_io,
      (render_only_prints (unicode_printable w) body).
    reflexivity.
  - rewrite !printed_app.
    destruct (render_marker _ _ H) as [S | S]; [left | right];
      repeat (apply in_or_app; right); exact S.
Qed.

Lemma exit_zero_means_rendered_witness :
  let w := answered_world (Some (response_with_body failure_body_text)) in
  exists event,
    run_event w = Some event /\
    io_effects (run_effects w) =
      [Run ssm_argv; WriteFile payload_path (json_dumps event); Run invoke_argv;
       ReadFile response_path].
Proof.
  intros w.
  destruct (@exit_zero_means_rendered w) as (result & event & _ & _ & E & I & _).
  - vm_compute. reflexivity.
  - exists event. split; [exact E | exact I].
Defined.

(** X4.  When the payload has been written and the invocation command
    returns a non-zero status, the run prints the elapsed time and then
    [AWS CLI error: ] with the whole standard error of the command, and
    exits with status 1; the response file is not read. *)
Theorem cli_failure_aborts (w : world) (c : completed) :
  snd (prepare_payload w) = inr tt ->
  lambda_invoke w = Some c ->
  returncode c <> 0%Z ->
  run_effects w =
    fst (prepare_payload w)
      ++ [Print [];
          Print (py "🚀 Invoking Lambda directly (bypassing API Gateway 30s limit)...");
          Print (py "   Function: qshelter-user-service-staging-api");
          Print [];
          Run invoke_argv;
          Print (py "⏱️  Lambda invocation took "
                   ++ PyFloat.format_f false 1
                        (SFsub PyFloat.prec PyFloat.emax (time_end w) (time_start w))
                   ++ py "s");
          Print (py "❌ AWS CLI error: " ++ stderr c)] /\
  run_exit_code w = 1%Z /\
  (forall path, ~ In (ReadFile path) (run_effects w)).
Proof.
  intros H0 Hc Hr. pose proof (invoke_failed w Hc Hr) as I.
  assert (Hm : main w = (fst (prepare_payload w) ++ fst (invoke w), inl (SystemExit 1))).
  { rewrite main_after_payload.
    destruct (prepare_payload w) as [t0 [e | []]]; [discriminate |].
    unfold bind at 1. unfold after_payload.
    rewrite (bind_raised _ I). now rewrite I. }
  unfold run_effects, run_exit_code. rewrite Hm. cbn [fst snd exit_code].
  split; [now rewrite I |]. split; [reflexivity |].
  intros path. rewrite in_app_iff. intros [H | H].
  - now apply (@prepare_payload_no_read w path).
  - rewrite I in H. cbn in H. repeat destruct H as [H | H]; try discriminate; exact H.
Qed.

Lemma cli_failure_aborts_witness :
  let c := {| returncode := 255;
              stdout := [];
              stderr := py "An error occurred (AccessDeniedException)
" |} in
  let w := with_lambda_answer (answered_world None) (Some c) in
  run_exit_code w = 1%Z /\
  last (run_printed w) [] = py "❌ AWS CLI error: An error occurred (AccessDeniedException)
".
Proof.
  intros c w.
  destruct (@cli_failure_aborts w c) as (E & X & _).
  - vm_compute. reflexivity.
  - reflexivity.
  - discriminate.
  - split; [exact X |]. unfold run_printed. rewrite E. vm_compute. reflexivity.
Defined.

(** ** The invocation metadata *)


(** X6.  When the invocation command returns 0 and its standard output
    is valid JSON that is not an object, the script ends with an uncaught
    AttributeError and status 1, right after the invocation. *)
Theorem metadata_not_object_crashes (w : world) (c : completed) (meta : pyval) :
  snd (prepare_payload w) = inr tt ->
  lambda_invoke w = Some c ->
  returncode c = 0%Z ->
  Loads.decode (strip (stdout c)) = Some meta ->
  (forall d, meta <> VDict d) ->
  snd (main w) = inl AttributeError /\
  run_exit_code w = 1%Z /\
  run_effects w = fst (prepare_payload w) ++ fst (invoke w).
Proof.
  intros H0 Hc Hr Hd Hm.
  pose proof (invoke_ok w Hc Hr) as I.
  assert (X : inspect_meta w c = ([], inl AttributeError)).
  { unfold inspect_meta, json_loads.
    destruct (strip (stdout c)) as [| x r] eqn:E; [discriminate |].
    rewrite Hd. run_step0. destruct meta; try reflexivity. now destruct (Hm members). }
  assert (Hmain : main w = (fst (prepare_payload w) ++ fst (invoke w), inl AttributeError)).
  { rewrite main_after_payload.
    destruct (prepare_payload w) as [t0 [e | []]]; [discriminate |].
    unfold bind at 1. unfold after_payload.
    rewrite (bind_value _ I), (bind_raised _ X). rewrite I. cbn [fst snd].
    now rewrite app_nil_r. }
  unfold run_exit_code, run_effects. now rewrite Hmain.
Qed.

Lemma metadata_not_object_crashes_witness :
  let w := sample_world (py "s3cr3t-value") (py "[200]
") None in
  snd (main w) = inl AttributeError /\ run_exit_code w = 1%Z.
Proof.
  intros w.
  destruct (@metadata_not_object_crashes w
              {| returncode := 0; stdout := py "[200]
"; stderr := [] |} (VList [VInt 200]))
    as (A & B & _); try (vm_compute; reflexivity).
  - intros d. discriminate.
  - split; assumption.
Defined.

(** ** The response file *)






(** ** The body of the response *)





(** ** The success report *)

Lemma bind_print (A : Type) (s : pystr) (k : unit -> M A) t r :
  k tt = (t, r) -> bind (print s) k = (Print s :: t, r).
Proof. intros H. unfold print, emit, bind. now rewrite H. Qed.

Lemma bind_lift (A B : Type) (x : res A) (a : A) (k : A -> M B) t r :
  x = inr a -> k a = (t, r) -> bind (lift x) k = (t, r).
Proof. intros -> H. unfold lift, bind. now rewrite H. Qed.

Lemma bind_then (A B : Type) (m : M A) (a : A) (k : A -> M B) t t' r :
  m = (t, inr a) -> k a = (t', r) -> bind m k = (t ++ t', r).
Proof. intros -> H. unfold bind. now rewrite H. Qed.

Lemma render_actor_line (isprintable : N -> bool) (actor name email role id id8 : pyval) :
  py_getitem actor (py "name") = inr name ->
  py_getitem actor (py "email") = inr email ->
  py_getitem actor (py "role") = inr role ->
  py_getitem actor (py "id") = inr id ->
  py_slice_to 8 id = inr id8 ->
  render_actor isprintable actor =
    ([Print (py "     " ++ py_str isprintable name ++ py " (" ++ py_str isprintable email
                ++ py ") — " ++ py_str isprintable role ++ py " — "
                ++ py_str isprintable id8 ++ py "...")],
     inr tt).
Proof.
  intros Hn He Hr Hi H8. unfold render_actor.
  eapply bind_lift; [exact Hn |]. eapply bind_lift; [exact He |].
  eapply bind_lift; [exact Hr |]. eapply bind_lift; [exact Hi |].
  eapply bind_lift; [exact H8 |]. reflexivity.
Qed.

Lemma render_org_line (isprintable : N -> bool) (org name type id id8 : pyval) :
  py_getitem org (py "name") = inr name ->
  py_getitem org (py "type") = inr type ->
  py_getitem org (py "id") = inr id ->
  py_slice_to 8 id = inr id8 ->
  render_org isprintable org =
    ([Print (py "     " ++ py_str isprintable name ++ py " (" ++ py_str isprintable type
                ++ py ") — " ++ py_str isprintable id8 ++ py "...")],
     inr tt).
Proof.
  intros Hn Ht Hi H8. unfold render_org.
  eapply bind_lift; [exact Hn |]. eapply bind_lift; [exact Ht |].
  eapply bind_lift; [exact Hi |]. eapply bind_lift; [exact H8 |]. reflexivity.
Qed.



Lemma encodable_digits (z : Z) : encodable (Str.of_Z z) = true.
Proof.
  assert (U : forall u, existsb is_surrogate (Str.uint_digits u) = false).
  { induction u as [| u IH | u IH | u IH | u IH | u IH | u IH | u IH | u IH | u IH | u IH];
      [reflexivity | exact IH ..]. }
  unfold encodable, Str.of_Z, Str.of_N.
  destruct z; cbn [existsb]; rewrite ?U; reflexivity.
Qed.

Section SuccessReport.

Variable isprintable : N -> bool.

Local Abbreviation str := (py_str isprintable).

(** The line of an actor, of an organization and of a step. *)
Let actor_line (kv : pystr * pyval) (line : pystr) : Prop :=
  exists name email role id id8,
    py_getitem (snd kv) (py "name") = inr name /\
    py_getitem (snd kv) (py "email") = inr email /\
    py_getitem (snd kv) (py "role") = inr role /\
    py_getitem (snd kv) (py "id") = inr id /\
    py_slice_to 8 id = inr id8 /\
    line = py "     " ++ str name ++ py " (" ++ str email ++ py ") — " ++ str role
              ++ py " — " ++ str id8 ++ py "...".

Let org_line (kv : pystr * pyval) (line : pystr) : Prop :=
  exists name type id id8,
    py_getitem (snd kv) (py "name") = inr name /\
    py_getitem (snd kv) (py "type") = inr type /\
    py_getitem (snd kv) (py "id") = inr id /\
    py_slice_to 8 id = inr id8 /\
    line = py "     " ++ str name ++ py " (" ++ str type ++ py ") — " ++ str id8 ++ py "...".

Let step_line (s : pyval) (line : pystr) : Prop :=
  exists name detail,
    py_getitem s (py "step") = inr name /\
    py_get s (py "detail") VNone = inr detail /\
    line = py "     ✅ " ++ str name
              ++ (if truthy detail then py " — " ++ str detail else []).

Lemma render_success_lines (body tenant : pyval) (actors orgs : pydict)
      (prop title unit_number price pm pm_name pm_phases : pyval) (price_text : pystr)
      (steps : list pyval) (actor_lines org_lines step_lines : list pystr) :
  py_getitem body (py "tenantId") = inr tenant ->
  py_get body (py "actors") (VDict []) = inr (VDict actors) ->
  Forall2 actor_line actors actor_lines ->
  py_get body (py "organizations") (VDict []) = inr (VDict orgs) ->
  Forall2 org_line orgs org_lines ->
  py_get body (py "property") (VDict []) = inr prop ->
  py_get prop (py "title") VNone = inr title ->
  py_get prop (py "unitNumber") VNone = inr unit_number ->
  py_get prop (py "price") (VInt 0) = inr price ->
  py_format_comma_0f price = inr price_text ->
  py_get body (py "paymentMethod") (VDict []) = inr pm ->
  py_get pm (py "name") VNone = inr pm_name ->
  py_get pm (py "phases") VNone = inr pm_phases ->
  py_get body (py "steps") (VList []) = inr (VList steps) ->
  Forall2 step_line steps step_lines ->
  render_success isprintable body =
    (Print (py "✅ SUCCESS")
       :: Print (py "   Tenant: " ++ str tenant)
       :: Print []
       :: Print (py "   Actors:")
       :: map Print actor_lines
       ++ Print []
       :: Print (py "   Organizations:")
       :: map Print org_lines
       ++ Print []
       :: Print (py "   Property: " ++ str title ++ py " / " ++ str unit_number
                    ++ py " — ₦" ++ price_text)
       :: Print (py "   Payment Method: " ++ str pm_name ++ py " (" ++ str pm_phases
                    ++ py " phases)")
       :: Print []
       :: Print (py "   Steps (" ++ Str.of_Z (Z.of_nat (List.length steps)) ++ py "):")
       :: map Print step_lines,
     inr tt).
Proof.
  intros Ht Ha Hal Ho Hol Hp Hpt Hpu Hpp Hpf Hm Hmn Hmp Hs Hsl.
  assert (FA : for_each actors (fun kv => render_actor isprintable (snd kv)) =
               (map Print actor_lines, inr tt)).
  { apply for_each_prints. clear Ha.
    induction Hal as [| kv line ks ls (n & e & r & i & i8 & H1 & H2 & H3 & H4 & H5 & ->) _ IH];
      [constructor |].
    constructor; [now apply render_actor_line with (id := i) | exact IH]. }
  assert (FO : for_each orgs (fun kv => render_org isprintable (snd kv)) =
               (map Print org_lines, inr tt)).
  { apply for_each_prints. clear Ho.
    induction Hol as [| kv line ks ls (n & t & i & i8 & H1 & H2 & H3 & H4 & ->) _ IH];
      [constructor |].
    constructor; [now apply render_org_line with (id := i) | exact IH]. }
  assert (FS : for_each steps (render_step isprintable) = (map Print step_lines, inr tt)).
  { apply for_each_prints. clear Hs.
    induction Hsl as [| s line ss ls (n & d & H1 & H2 & ->) _ IH]; [constructor |].
    constructor; [now apply render_step_line | exact IH]. }
  unfold render_success, render_steps.
  apply bind_print.
  eapply bind_lift; [exact Ht |].
  do 3 apply bind_print.
  eapply bind_lift; [exact Ha |].
  eapply bind_lift; [reflexivity |].
  eapply bind_then; [exact FA |].
  do 2 apply bind_print.
  eapply bind_lift; [exact Ho |].
  eapply bind_lift; [reflexivity |].
  eapply bind_then; [exact FO |].
  apply bind_print.
  eapply bind_lift; [exact Hp |].
  eapply bind_lift; [exact Hpt |].
  eapply bind_lift; [exact Hpu |].
  eapply bind_lift; [exact Hpp |].
  eapply bind_lift; [exact Hpf |].
  apply bind_print.
  eapply bind_lift; [exact Hm |].
  eapply bind_lift; [exact Hmn |].
  eapply bind_lift; [exact Hmp |].
  do 2 apply bind_print.
  eapply bind_lift; [exact Hs |].
  eapply bind_lift; [reflexivity |].
  apply bind_print.
  eapply bind_lift; [reflexivity |].
  exact FS.
Qed.

(** X11.  A body whose success flag is truthy and whose parts have the
    expected shape is rendered as: the success marker, the tenant, the
    actors (one line each, in the order of the object:
    [name (email) — role — ] and the first 8 characters of the id), the
    organizations ([name (type) — ] and the first 8 characters of the
    id), the property line with the price rounded to a whole number with
    thousands separators, the payment method, and the steps section.
    When the texts taken from the body can be encoded for the terminal
    (no lone surrogate), every line is printed and the rendering ends
    normally. *)
Theorem success_rendering (body flag tenant : pyval) (actors orgs : pydict)
        (prop title unit_number price pm pm_name pm_phases : pyval) (price_text : pystr)
        (steps : list pyval) (actor_lines org_lines step_lines : list pystr) :
  py_get body (py "success") VNone = inr flag ->
  truthy flag = true ->
  py_getitem body (py "tenantId") = inr tenant ->
  py_get body (py "actors") (VDict []) = inr (VDict actors) ->
  Forall2 actor_line actors actor_lines ->
  py_get body (py "organizations") (VDict []) = inr (VDict orgs) ->
  Forall2 org_line orgs org_lines ->
  py_get body (py "property") (VDict []) = inr prop ->
  py_get prop (py "title") VNone = inr title ->
  py_get prop (py "unitNumber") VNone = inr unit_number ->
  py_get prop (py "price") (VInt 0) = inr price ->
  py_format_comma_0f price = inr price_text ->
  py_get body (py "paymentMethod") (VDict []) = inr pm ->
  py_get pm (py "name") VNone = inr pm_name ->
  py_get pm (py "phases") VNone = inr pm_phases ->
  py_get body (py "steps") (VList []) = inr (VList steps) ->
  Forall2 step_line steps step_lines ->
  forallb encodable
          (str tenant :: actor_lines ++ org_lines
             ++ str title :: str unit_number :: price_text :: str pm_name :: str pm_phases
             :: step_lines) = true ->
  terminal (render isprintable body) =
    (Print (py "✅ SUCCESS")
       :: Print (py "   Tenant: " ++ str tenant)
       :: Print []
       :: Print (py "   Actors:")
       :: map Print actor_lines
       ++ Print []
       :: Print (py "   Organizations:")
       :: map Print org_lines
       ++ Print []
       :: Print (py "   Property: " ++ str title ++ py " / " ++ str unit_number
                    ++ py " — ₦" ++ price_text)
       :: Print (py "   Payment Method: " ++ str pm_name ++ py " (" ++ str pm_phases
                    ++ py " phases)")
       :: Print []
       :: Print (py "   Steps (" ++ Str.of_Z (Z.of_nat (List.length steps)) ++ py "):")
       :: map Print step_lines,
     inr tt).
Proof.
  intros Hf Hfl Ht Ha Hal Ho Hol Hp Hpt Hpu Hpp Hpf Hm Hmn Hmp Hs Hsl He.
  assert (R : render isprintable body =
    (Print (py "✅ SUCCESS")
       :: Print (py "   Tenant: " ++ str tenant)
       :: Print []
       :: Print (py "   Actors:")
       :: map Print actor_lines
       ++ Print []
       :: Print (py "   Organizations:")
       :: map Print org_lines
       ++ Print []
       :: Print (py "   Property: " ++ str title ++ py " / " ++ str unit_number
                    ++ py " — ₦" ++ price_text)
       :: Print (py "   Payment Method: " ++ str pm_name ++ py " (" ++ str pm_phases
                    ++ py " phases)")
       :: Print []
       :: Print (py "   Steps (" ++ Str.of_Z (Z.of_nat (List.length steps)) ++ py "):")
       :: map Print step_lines,
     inr tt)).
  { unfold render. eapply bind_lift; [exact Hf |]. rewrite Hfl.
    now apply render_success_lines with (actors := actors) (orgs := orgs) (prop := prop)
                                         (price := price) (pm := pm). }
  rewrite R. apply terminal_all. cbn [fst].
  cbn [forallb] in He. rewrite !forallb_app in He. cbn [forallb] in He.
  repeat (apply andb_prop in He as [? He]).
  repeat (rewrite printed_print || rewrite printed_app || rewrite printed_map_print
          || rewrite forallb_app || rewrite encodable_app || cbn [forallb]).
  repeat match goal with H : _ = true |- _ => rewrite H; clear H end.
  rewrite encodable_digits. reflexivity.
Qed.

(** X12.  A body whose success flag is truthy and that has no
    [tenantId] prints the success marker and then ends the run with an
    uncaught KeyError, status 1. *)
Theorem success_without_tenant_crashes (d : pydict) (flag : pyval) :
  dict_lookup (py "success") d = Some flag ->
  truthy flag = true ->
  dict_lookup (py "tenantId") d = None ->
  render isprintable (VDict d) = ([Print (py "✅ SUCCESS")], inl KeyError) /\
  exit_code (snd (render isprintable (VDict d))) = 1%Z.
Proof.
  intros Hf Hfl Ht.
  assert (R : render isprintable (VDict d) = ([Print (py "✅ SUCCESS")], inl KeyError)).
  { unfold render. eapply bind_lift; [cbn; now rewrite Hf |]. rewrite Hfl.
    unfold render_success. apply bind_print.
    apply bind_raised. cbn. now rewrite Ht. }
  split; [exact R | now rewrite R].
Qed.

(** X13.  A body that has only a truthy success flag and a tenant that
    can be encoded for the terminal (no lone surrogate) is rendered with
    the defaults of the script: empty actors and organizations sections,
    the property line [None / None] with the price 0, the payment method
    [None (None phases)], and a steps section of 0 steps. *)
Theorem minimal_success_defaults (d : pydict) (flag tenant : pyval) :
  dict_lookup (py "success") d = Some flag ->
  truthy flag = true ->
  dict_lookup (py "tenantId") d = Some tenant ->
  dict_lookup (py "actors") d = None ->
  dict_lookup (py "organizations") d = None ->
  dict_lookup (py "property") d = None ->
  dict_lookup (py "paymentMethod") d = None ->
  dict_lookup (py "steps") d = None ->
  encodable (str tenant) = true ->
  terminal (render isprintable (VDict d)) =
    ([Print (py "✅ SUCCESS");
      Print (py "   Tenant: " ++ str tenant);
      Print [];
      Print (py "   Actors:");
      Print [];
      Print (py "   Organizations:");
      Print [];
      Print (py "   Property: None / None — ₦0");
      Print (py "   Payment Method: None (None phases)");
      Print [];
      Print (py "   Steps (0):")],
     inr tt).
Proof.
  intros Hf Hfl Ht Ha Ho Hp Hm Hs He.
  assert (R : render isprintable (VDict d) =
    ([Print (py "✅ SUCCESS");
      Print (py "   Tenant: " ++ str tenant);
      Print [];
      Print (py "   Actors:");
      Print [];
      Print (py "   Organizations:");
      Print [];
      Print (py "   Property: None / None — ₦0");
      Print (py "   Payment Method: None (None phases)");
      Print [];
      Print (py "   Steps (0):")],
     inr tt)).
  { unfold render. eapply bind_lift; [cbn; now rewrite Hf |]. rewrite Hfl.
    rewrite (@render_success_lines (VDict d) tenant [] [] (VDict []) VNone VNone (VInt 0)
               (VDict []) VNone VNone (py "0") [] [] [] []);
      try (cbn; first [now rewrite Ht | now rewrite Ha | now rewrite Ho
                      | now rewrite Hp | now rewrite Hm | now rewrite Hs]);
      try constructor; try reflexivity. }
  rewrite R. apply terminal_all. cbn [fst].
  repeat rewrite printed_print. cbn [forallb]. rewrite encodable_app, He.
  reflexivity.
Qed.



End SuccessReport.

Lemma success_rendering_witness :
  printed (fst (terminal (render (fun _ => true) full_body))) =
    [py "✅ SUCCESS";
     py "   Tenant: tenant-42";
     [];
     py "   Actors:";
     py "     Ada (ada@example.com) — ADMIN — 01234567...";
     py "     Bob (bob@example.com) — AGENT — b-7...";
     [];
     py "   Organizations:";
     py "     First Bank (BANK) — org-0000...";
     [];
     py "   Property: Flat A / 12 — ₦1,234,568";
     py "   Payment Method: Installment (3 phases)";
     [];
     py "   Steps (2):";
     py "     ✅ create tenant";
     py "     ✅ seed users — 3 users"].
Proof.
  rewrite (@success_rendering (fun _ => true) full_body (VBool true) (VStr (py "tenant-42"))
             [(py "admin", VDict [(py "name", VStr (py "Ada"));
                                  (py "email", VStr (py "ada@example.com"));
                                  (py "role", VStr (py "ADMIN"));
                                  (py "id", VStr (py "0123456789abcdef"))]);
              (py "agent", VDict [(py "name", VStr (py "Bob"));
                                  (py "email", VStr (py "bob@example.com"));
                                  (py "role", VStr (py "AGENT"));
                                  (py "id", VStr (py "b-7"))])]
             [(py "bank", VDict [(py "name", VStr (py "First Bank"));
                                 (py "type", VStr (py "BANK"));
                                 (py "id", VStr (py "org-000000001"))])]
             (VDict [(py "title", VStr (py "Flat A")); (py "unitNumber", VInt 12);
                     (py "price", VFloat (PyFloat.of_decimal false 12345675 (-1)))])
             (VStr (py "Flat A")) (VInt 12)
             (VFloat (PyFloat.of_decimal false 12345675 (-1)))
             (VDict [(py "name", VStr (py "Installment")); (py "phases", VInt 3)])
             (VStr (py "Installment")) (VInt 3) (py "1,234,568")
             [VDict [(py "step", VStr (py "create tenant"))];
              VDict [(py "step", VStr (py "seed users")); (py "detail", VStr (py "3 users"))]]
             [py "     Ada (ada@example.com) — ADMIN — 01234567...";
              py "     Bob (bob@example.com) — AGENT — b-7..."]
             [py "     First Bank (BANK) — org-0000..."]
             [py "     ✅ create tenant"; py "     ✅ seed users — 3 users"]);
    try match goal with |- _ = _ => vm_compute; reflexivity end.
  - repeat constructor.
    + exists (VStr (py "Ada")), (VStr (py "ada@example.com")), (VStr (py "ADMIN")),
        (VStr (py "0123456789abcdef")), (VStr (py "01234567")).
      repeat split; vm_compute; reflexivity.
    + exists (VStr (py "Bob")), (VStr (py "bob@example.com")), (VStr (py "AGENT")),
        (VStr (py "b-7")), (VStr (py "b-7")).
      repeat split; vm_compute; reflexivity.
  - repeat constructor.
    exists (VStr (py "First Bank")), (VStr (py "BANK")), (VStr (py "org-000000001")),
      (VStr (py "org-0000")).
    repeat split; vm_compute; reflexivity.
  - repeat constructor.
    + exists (VStr (py "create tenant")), VNone. repeat split; vm_compute; reflexivity.
    + exists (VStr (py "seed users")), (VStr (py "3 users")).
      repeat split; vm_compute; reflexivity.
Defined.

Lemma success_without_tenant_crashes_witness :
  exit_code (snd (render (fun _ => true) (VDict [(py "success", VInt 1)]))) = 1%Z.
Proof.
  apply (@success_without_tenant_crashes (fun _ => true) [(py "success", VInt 1)] (VInt 1));
    reflexivity.
Defined.

Lemma minimal_success_defaults_witness :
  printed (fst (terminal
                  (render (fun _ => true)
                          (VDict [(py "success", VBool true);
                                  (py "tenantId", VStr (py "t-1"))])))) =
    [py "✅ SUCCESS"; py "   Tenant: t-1"; []; py "   Actors:"; []; py "   Organizations:";
     []; py "   Property: None / None — ₦0"; py "   Payment Method: None (None phases)";
     []; py "   Steps (0):"].
Proof.
  rewrite (@minimal_success_defaults (fun _ => true)
             [(py "success", VBool true); (py "tenantId", VStr (py "t-1"))]
             (VBool true) (VStr (py "t-1")));
    vm_compute; reflexivity.
Defined.



(** ** The secret on its way to the payload *)

Lemma lstrip_split (s : pystr) :
  exists pre, s = pre ++ lstrip s /\ forallb isspace pre = true.
Proof.
  induction s as [| c s (pre & E & W)]; [now exists [] |].
  cbn [lstrip]. destruct (isspace c) eqn:C.
  - exists (c :: pre). cbn. rewrite C, W. now rewrite <- E.
  - now exists [].
Qed.

Lemma rstrip_split (s : pystr) :
  exists post, s = rstrip s ++ post /\ forallb isspace post = true.
Proof.
  unfold rstrip. destruct (lstrip_split (rev s)) as (pre & E & W).
  exists (rev pre). split.
  - rewrite <- rev_app_distr, <- E. now rewrite rev_involutive.
  - apply forallb_forall. intros x Hx. apply in_rev in Hx.
    rewrite forallb_forall in W. now apply W.
Qed.

Lemma strip_split (s : pystr) :
  exists pre post,
    s = pre ++ strip s ++ post /\
    forallb isspace pre = true /\ forallb isspace post = true.
Proof.
  destruct (lstrip_split s) as (pre & E & W).
  destruct (rstrip_split (lstrip s)) as (post & E' & W').
  exists pre, post. unfold strip. now rewrite <- E', <- E.
Qed.

Lemma strip_first (s : pystr) x r : strip s = x :: r -> isspace x = false.
Proof.
  unfold strip. intros H.
  destruct (rstrip_split (lstrip s)) as (post & E & _). rewrite H in E.
  now apply lstrip_head in E.
Qed.

Lemma strip_last (s : pystr) r x : strip s = r ++ [x] -> isspace x = false.
Proof.
  unfold strip, rstrip. intros H.
  apply (f_equal (@rev N)) in H. rewrite rev_involutive, rev_app_distr in H.
  now apply lstrip_head in H.
Qed.

(** X14.  The secret that goes into the event is the standard output of
    the parameter store without the whitespace around it: the output is
    whitespace, the secret, whitespace; the secret is not empty and
    neither starts nor ends with a whitespace character.  Whitespace
    inside the secret is kept. *)
Theorem header_secret_trimmed (w : world) (event : pyval) :
  run_event w = Some event ->
  exists (c : completed) (pre secret post : pystr) (headers : pyval),
    ssm_get_parameter w = Some c /\
    stdout c = pre ++ secret ++ post /\
    forallb isspace pre = true /\ forallb isspace post = true /\
    secret <> [] /\
    (forall x r, secret = x :: r -> isspace x = false) /\
    (forall r x, secret = r ++ [x] -> isspace x = false) /\
    py_getitem event (py "headers") = inr headers /\
    py_getitem headers (py "x-bootstrap-secret") = inr (VStr secret).
Proof.
  intros He. apply run_event_value in He as (c & rid & ems & Hc & Hne & ->).
  destruct (strip_split (stdout c)) as (pre & post & E & Wpre & Wpost).
  exists c, pre, (strip (stdout c)), post. eexists.
  repeat split; try eassumption.
  - intros x r. apply strip_first.
  - intros r x. apply strip_last.
Qed.

Lemma header_secret_trimmed_witness :
  let w := sample_world (py "  s3cr3t value
") sample_meta None in
  exists (event : pyval) (pre secret post : pystr),
    run_event w = Some event /\
    py "  s3cr3t value
" = pre ++ secret ++ post /\
    forallb isspace pre = true /\ forallb isspace post = true /\ secret <> [].
Proof.
  intros w.
  assert (He : exists event, run_event w = Some event) by (vm_compute; eauto).
  destruct He as [event He]. exists event.
  destruct (@header_secret_trimmed w event He)
    as (c & pre & secret & post & headers & Hc & E & Wpre & Wpost & Hne & _).
  exists pre, secret, post.
  unfold w in Hc. cbn [ssm_get_parameter sample_world] in Hc. injection Hc as <-.
  repeat split; assumption.
Defined.

(** [json.dumps] of a string of plain characters is the string between
    double quotes. *)
Lemma encode_plain (s : pystr) :
  forallb json_plain s = true -> Dumps.encode_string s = [34%N] ++ s ++ [34%N].
Proof.
  intros H. unfold Dumps.encode_string. f_equal. f_equal.
  induction s as [| c s IH]; [reflexivity |].
  cbn [forallb] in H. apply andb_prop in H as [Hc Hs].
  cbn [flat_map]. rewrite (IH Hs).
  unfold json_plain in Hc.
  apply andb_prop in Hc as [Hc H92]. apply andb_prop in Hc as [Hc H34].
  apply negb_true_iff in H92, H34.
  unfold Dumps.escape_char. rewrite H34, H92.
  apply andb_prop in Hc as [Hlo Hhi].
  apply N.leb_le in Hlo. 
  assert (T : forall k, (k < 32)%N -> (c =? k)%N = false)
    by (intros k Hk; apply N.eqb_neq; lia).
  rewrite !T by lia.
  apply N.leb_le in Hlo. now rewrite Hlo, Hhi.
Qed.

Lemma occurs_here (m : pystr) : occurs_in m m.
Proof. exists [], []. now rewrite app_nil_r. Qed.

Lemma occurs_right (m a b : pystr) : occurs_in m b -> occurs_in m (a ++ b).
Proof. intros (pre & post & ->). exists (a ++ pre), post. now rewrite app_assoc. Qed.

Lemma occurs_left (m a b : pystr) : occurs_in m a -> occurs_in m (a ++ b).
Proof.
  intros (pre & post & ->). exists pre, (post ++ b). now rewrite <- !app_assoc.
Qed.

Ltac find_occurrence :=
  lazymatch goal with
  | |- occurs_in ?m ?m => apply occurs_here
  | |- occurs_in _ (_ ++ _) =>
    first [ apply occurs_right; find_occurrence | apply occurs_left; find_occurrence ]
  end.

Lemma event_text_holds_header (secret : pystr) (rid : Z) (t : pystr) (ems : Z) :
  occurs_in (Dumps.encode_string (py "x-bootstrap-secret") ++ py ": "
               ++ Dumps.encode_string secret)
            (json_dumps (event_of secret rid t ems)).
Proof.
  unfold json_dumps, event_of.
  cbn [Dumps.encode map fst snd Str.join].
  find_occurrence.
Qed.

(** X15.  The payload file holds the secret in clear text: when the
    secret is made of plain characters (printable ASCII other than the
    double quote and the backslash), the text written to the payload file
    contains the header name, a colon and the secret itself between
    double quotes. *)
Theorem payload_holds_secret (w : world) (c : completed) (event : pyval) :
  ssm_get_parameter w = Some c ->
  run_event w = Some event ->
  forallb json_plain (strip (stdout c)) = true ->
  In (WriteFile payload_path (json_dumps event)) (run_effects w) /\
  occurs_in (pyq "'x-bootstrap-secret': '" ++ strip (stdout c) ++ pyq "'")
            (json_dumps event).
Proof.
  intros Hc He Hp. split; [now apply run_event_written |].
  apply run_event_value in He as (c' & rid & ems & Hc' & _ & ->).
  rewrite Hc in Hc'. injection Hc' as <-.
  pose proof (event_text_holds_header (strip (stdout c)) rid (utcnow_strftime w) ems) as O.
  rewrite (encode_plain _ Hp) in O. exact O.
Qed.

Lemma payload_holds_secret_witness :
  let w := sample_world (py "s3cr3t-value
") sample_meta None in
  exists event,
    run_event w = Some event /\
    occurs_in (pyq "'x-bootstrap-secret': 's3cr3t-value'") (json_dumps event).
Proof.
  intros w.
  assert (He : exists event, run_event w = Some event) by (vm_compute; eauto).
  destruct He as [event He]. exists event. split; [exact He |].
  destruct (@payload_holds_secret w
              {| returncode := 0; stdout := py "s3cr3t-value
"; stderr := [] |} event eq_refl He) as [_ O].
  - vm_compute. reflexivity.
  - exact O.
Defined.

(** X18.  The script looks only at the standard output of the secret
    fetch: its return code and its standard error are never read, so two
    answers with the same standard output give the same run, whatever
    their status. *)
Theorem secret_fetch_status_ignored (w : world) (c1 c2 : completed) :
  stdout c1 = stdout c2 ->
  main (with_ssm_answer w (Some c1)) = main (with_ssm_answer w (Some c2)).
Proof.
  intros H. unfold main.
  assert (F : fetch_secret (with_ssm_answer w (Some c1)) =
              fetch_secret (with_ssm_answer w (Some c2))).
  { unfold fetch_secret. cbn [ssm_get_parameter with_ssm_answer]. run_step0.
    now rewrite H. }
  rewrite F. reflexivity.
Qed.

Lemma secret_fetch_status_ignored_witness :
  let w := answered_world (Some (response_with_body sample_body_text)) in
  main (with_ssm_answer w (Some {| returncode := 0; stdout := py "s3cr3t"; stderr := [] |})) =
  main (with_ssm_answer w (Some {| returncode := 254; stdout := py "s3cr3t";
                                   stderr := py "ParameterNotFound" |})).
Proof.
  intros w.
  apply (@secret_fetch_status_ignored w
           {| returncode := 0; stdout := py "s3cr3t"; stderr := [] |}
           {| returncode := 254; stdout := py "s3cr3t"; stderr := py "ParameterNotFound" |}).
  reflexivity.
Defined.
